(** * agric-trade-system: ingestion pipeline and aggregation engine

    A shallow embedding of [trade/models.py] and [trade/views.py].

    - Database tables are lists of records in insertion order; a [Store]
      holds the catalog table ([HSCode]) and the trade table ([TradeData]).
    - Code that talks to the database runs in a state-and-exception monad
      [M]: a raised Python exception leaves the store as it was when the
      exception was raised, unless [atomic] rolls it back.
    - The database is the one a Django project starts with, SQLite: an
      exact lookup on text compares case-sensitively, [icontains] folds
      the case of ASCII letters, check and uniqueness constraints are
      enforced, the length and digit limits of the fields are not.
    - Decimal columns ([max_digits=18, decimal_places=2]) are integers
      counting hundredths.  Amounts stay in the range where sums of
      [Decimal]s are exact under the 28 digits of the default context,
      and a stored amount is the amount that was written: SQLite keeps
      a decimal as a floating-point number and hands back 15 significant
      digits, so this holds for amounts of at most 15 digits
      ([small_amount]); statements about stored amounts assume it.
    - Text is a [string]; case mapping and whitespace are those of ASCII,
      which is what [str.upper] and [str.strip] do on ASCII text
      ([ascii_text]); statements about the text an upload stores assume
      the cells they transform are ASCII.
    - Integers are unbounded; SQLite takes integers of 64 bits, and
      binding a larger one raises [OverflowError].  A statement takes a
      limited number of parameters, 999 in the oldest builds; the lookups
      of an upload stay below it in [plain_upload].
    - A decoded frame has numeric columns [year], [month], [quantity],
      [value_usd] and text columns [trade_type], [hs_code], [country],
      [description]; integers stand for the parameters [year] and [month]
      of a query string. *)

From stdpp Require Import base option list strings gmap pretty sorting.
From Stdlib Require Import Ascii ZArith Lia.

Open Scope Z_scope.

(** ** Python string methods *)

Module Str.

Definition is_lower (c : ascii) : bool :=
  let n := nat_of_ascii c in (97 <=? n)%nat && (n <=? 122)%nat.

Definition is_upper (c : ascii) : bool :=
  let n := nat_of_ascii c in (65 <=? n)%nat && (n <=? 90)%nat.

Definition upper_char (c : ascii) : ascii :=
  if is_lower c then ascii_of_nat (nat_of_ascii c - 32) else c.

Definition lower_char (c : ascii) : ascii :=
  if is_upper c then ascii_of_nat (nat_of_ascii c + 32) else c.

Fixpoint map_chars (f : ascii → ascii) (s : string) : string :=
  match s with
  | EmptyString => EmptyString
  | String c s' => String (f c) (map_chars f s')
  end.

(** [str.upper()] and [str.lower()] on ASCII text: a character outside
    ASCII is left as it is, where Python maps the letters of every
    alphabet. *)
Definition upper : string → string := map_chars upper_char.
Definition lower : string → string := map_chars lower_char.

(** The ASCII characters [str.strip()] removes: tab, line feed, vertical
    tab, form feed, carriage return, the four separators 28..31 and space.
    Python also removes the white space outside ASCII. *)
Definition is_space (c : ascii) : bool :=
  let n := nat_of_ascii c in
  ((9 <=? n)%nat && (n <=? 13)%nat) || ((28 <=? n)%nat && (n <=? 32)%nat).

Fixpoint lstrip (s : string) : string :=
  match s with
  | EmptyString => EmptyString
  | String c s' => if is_space c then lstrip s' else s
  end.

Fixpoint rstrip (s : string) : string :=
  match s with
  | EmptyString => EmptyString
  | String c s' =>
      match rstrip s' with
      | EmptyString => if is_space c then EmptyString else String c EmptyString
      | t => String c t
      end
  end.

Definition strip (s : string) : string := rstrip (lstrip s).

Fixpoint startswith (p s : string) : bool :=
  match p, s with
  | EmptyString, _ => true
  | String a p', String b s' => bool_decide (a = b) && startswith p' s'
  | String _ _, EmptyString => false
  end.

(** [needle in hay]. *)
Fixpoint contains (needle hay : string) : bool :=
  startswith needle hay ||
  match hay with
  | EmptyString => false
  | String _ hay' => contains needle hay'
  end.

Fixpoint endswith (suffix s : string) : bool :=
  bool_decide (s = suffix) ||
  match s with
  | EmptyString => false
  | String _ s' => endswith suffix s'
  end.

(** Truth value of a Python string: the empty string is false. *)
Definition truthy (s : string) : bool := negb (bool_decide (s = EmptyString)).

End Str.

(** ** Exceptions and the database monad *)

Inductive exn : Type :=
  | UnicodeDecodeError
  | ParserError
  | TypeError
  | ValueError
  | KeyError
  | ZeroDivisionError
  | ValidationError
  | IntegrityError
  | OverflowError.

Global Instance exn_eq_dec : EqDecision exn.
Proof. solve_decision. Defined.

Inductive outcome (A : Type) : Type :=
  | Ret (a : A)
  | Raise (e : exn).
Arguments Ret {A} a.
Arguments Raise {A} e.

Definition obind {A B} (x : outcome A) (k : A → outcome B) : outcome B :=
  match x with
  | Ret a => k a
  | Raise e => Raise e
  end.

Fixpoint omapM {A B} (f : A → outcome B) (l : list A) : outcome (list B) :=
  match l with
  | [] => Ret []
  | x :: l' => obind (f x) (λ y, obind (omapM f l') (λ ys, Ret (y :: ys)))
  end.

(** ** Data model ([trade/models.py]) *)

Record HSCode : Type := mkHSCode {
  code : string;
  description : string;
  chapter : string;
  heading : string;
  subheading : string;
}.

Global Instance HSCode_eq_dec : EqDecision HSCode.
Proof. solve_decision. Defined.

(** [HSCode(code=c, description=d)]: the three prefix fields are filled in
    by [save], which [bulk_create] does not call; they keep the default of
    a [CharField], the empty string. *)
Definition HSCode_init (c d : string) : HSCode :=
  {| code := c; description := d;
     chapter := ""; heading := ""; subheading := "" |}.

(** A [TradeData] instance.  The two decimal fields have type [D]: an
    instance built by the upload view carries the raw cell ([option Z],
    [None] for a blank), a row of the table carries a decimal ([Z]).
    The foreign key is the catalog entry it points to: entries are never
    updated or deleted by the views. *)
Record TradeData_ (D : Type) : Type := mkTradeData {
  year : Z;
  month : Z;
  trade_type : string;
  hs_code : HSCode;
  country : option string;
  quantity : D;
  unit_ : option string;
  value_usd : D;
}.
Arguments mkTradeData {D}.
Arguments year {D}.
Arguments month {D}.
Arguments trade_type {D}.
Arguments hs_code {D}.
Arguments country {D}.
Arguments quantity {D}.
Arguments unit_ {D}.
Arguments value_usd {D}.

Abbreviation TradeData := (TradeData_ Z).
Abbreviation TradeDataObj := (TradeData_ (option Z)).

Record Store : Type := mkStore {
  hs_table : list HSCode;
  trade_table : list TradeData;
}.

Definition M (A : Type) : Type := Store → Store * outcome A.

Definition ret {A} (a : A) : M A := λ s, (s, Ret a).
Definition bind {A B} (m : M A) (k : A → M B) : M B :=
  λ s, match m s with
       | (s', Ret a) => k a s'
       | (s', Raise e) => (s', Raise e)
       end.
Definition lift {A} (x : outcome A) : M A := λ s, (s, x).

Declare Scope db_scope.
Delimit Scope db_scope with db.
Notation "x <- m ;; k" := (bind m (λ x, k))
  (at level 100, m at next level, right associativity) : db_scope.
Notation "'exec' m ;; k" := (bind m (λ _, k))
  (at level 100, m at next level, right associativity) : db_scope.

(** [with transaction.atomic(): body]: when [body] raises, every write it
    made is undone and the exception propagates. *)
Definition atomic {A} (body : M A) : M A :=
  λ s, match body s with
       | (s', Ret a) => (s', Ret a)
       | (_, Raise e) => (s, Raise e)
       end.

(** ** Catalog and trade tables *)

(** [HSCode.objects.filter(code__in=codes)]. *)
Definition HSCode_filter_code_in (codes : list string) : M (list HSCode) :=
  λ s, (s, Ret (filter (λ h, code h ∈ codes) (hs_table s))).

(** One [INSERT] into the catalog: [code] is [unique=True]. *)
Definition insert_hs (h : HSCode) : M unit :=
  λ s, if bool_decide (code h ∈ code <$> hs_table s)
       then (s, Raise IntegrityError)
       else (mkStore (hs_table s ++ [h]) (trade_table s), Ret tt).

(** The inserts of one [bulk_create], object by object; the first one
    that is refused raises. *)
Fixpoint insert_all {A} (ins : A → M unit) (objs : list A) : M unit :=
  match objs with
  | [] => ret tt
  | o :: objs' => (exec ins o ;; insert_all ins objs')%db
  end.

(** [HSCode.objects.bulk_create(objs, batch_size=1000)].  Django runs the
    batches of one call in a transaction of their own. *)
Definition HSCode_bulk_create (objs : list HSCode) : M unit :=
  atomic (insert_all insert_hs objs).

(** Preparing the decimal fields of an instance for the database: a blank
    is not a decimal number. *)
Definition to_python (o : TradeDataObj) : outcome TradeData :=
  match quantity o, value_usd o with
  | Some q, Some v =>
      Ret (mkTradeData (year o) (month o) (trade_type o) (hs_code o)
             (country o) q (unit_ o) v)
  | _, _ => Raise ValidationError
  end.

(** One [INSERT] into the trade table, once its parameters are bound:
    [year] and [month] are [PositiveSmallIntegerField]s (a check
    constraint [>= 0]) and [country] is not nullable. *)
Definition insert_trade (t : TradeData) : M unit :=
  λ s, if bool_decide (0 ≤ year t) && bool_decide (0 ≤ month t)
          && bool_decide (is_Some (country t))
       then (mkStore (hs_table s) (trade_table s ++ [t]), Ret tt)
       else (s, Raise IntegrityError).

(** Binding the integers of a record to the parameters of the [INSERT]:
    [sqlite3] takes integers of 64 bits. *)
Definition int64 (n : Z) : bool :=
  bool_decide (- 2 ^ 63 ≤ n) && bool_decide (n < 2 ^ 63).

Definition bind_parameters (t : TradeData) : outcome TradeData :=
  if int64 (year t) && int64 (month t) then Ret t else Raise OverflowError.

(** [TradeData.objects.bulk_create(objs, batch_size=2000)]: the fields of
    every instance are prepared, the parameters of the statement are
    bound, then the rows are inserted. *)
Definition TradeData_bulk_create (objs : list TradeDataObj) : M unit :=
  atomic (records <- lift (omapM to_python objs) ;;
          records <- lift (omapM bind_parameters records) ;;
          insert_all insert_trade records)%db.

(** [{hs.code: hs for hs in entries}]: a later entry replaces an earlier
    one with the same code. *)
Definition dict_by_code (entries : list HSCode) : gmap string HSCode :=
  foldl (λ d hs, <[code hs := hs]> d) ∅ entries.

(** ** Decoded frames *)

(** A row of a decoded frame.  [year], [month], [quantity] and [value_usd]
    are numeric columns, the others are text columns; [None] is a blank
    cell (NaN), which [fillna] turns into the empty string. *)
Record Row : Type := mkRow {
  r_year : option Z;
  r_month : option Z;
  r_trade_type : option string;
  r_hs_code : option string;
  r_country : option string;
  r_quantity : option Z;
  r_description : option string;
  r_value_usd : option Z;
}.

Record DataFrame : Type := mkDataFrame {
  columns : list string;
  rows : list Row;
}.

(** The text of a cell once blanks are filled. *)
Definition text (c : option string) : string := default "" c.

(** [df.fillna("")]: a blank text cell becomes [""]; a blank numeric cell
    becomes [""] too and stays [None] here, a cell that is not a number. *)
Definition fillna (r : Row) : Row :=
  mkRow (r_year r) (r_month r) (Some (text (r_trade_type r)))
    (Some (text (r_hs_code r))) (Some (text (r_country r))) (r_quantity r)
    (Some (text (r_description r))) (r_value_usd r).

(** [df["hs_code"] = df["hs_code"].astype(str).str.strip()] *)
Definition strip_hs_code (r : Row) : Row :=
  mkRow (r_year r) (r_month r) (r_trade_type r)
    (Some (Str.strip (text (r_hs_code r)))) (r_country r) (r_quantity r)
    (r_description r) (r_value_usd r).

(** [df["trade_type"] = df["trade_type"].str.upper().str.strip()] *)
Definition upper_trade_type (r : Row) : Row :=
  mkRow (r_year r) (r_month r)
    (Str.strip <$> (Str.upper <$> r_trade_type r))
    (r_hs_code r) (r_country r) (r_quantity r)
    (r_description r) (r_value_usd r).

(** [(df["month"] >= 1) & (df["month"] <= 12)] for one row: comparing the
    empty string with a number is a [TypeError]. *)
Definition month_in_range (r : Row) : outcome bool :=
  match r_month r with
  | Some m => Ret (bool_decide (1 ≤ m) && bool_decide (m ≤ 12))
  | None => Raise TypeError
  end.

(** [df[mask]] *)
Fixpoint select {A} (l : list A) (mask : list bool) : list A :=
  match l, mask with
  | x :: l', b :: mask' => if b then x :: select l' mask' else select l' mask'
  | _, _ => []
  end.

(** Lines 103 to 108 of [process_dataframe]. *)
Definition normalize (df : list Row) : outcome (list Row) :=
  let df := fillna <$> df in
  let df := strip_hs_code <$> df in
  let df := upper_trade_type <$> df in
  obind (omapM month_in_range df) (λ mask, Ret (select df mask)).

(** [DataFrame.drop_duplicates()]: the first of equal rows is kept. *)
Fixpoint drop_duplicates `{EqDecision A} (l : list A) : list A :=
  match l with
  | [] => []
  | x :: l' => x :: filter (λ y, y ≠ x) (drop_duplicates l')
  end.

(** [int(cell)]: [int("")] is a [ValueError]. *)
Definition int (c : option Z) : outcome Z :=
  match c with
  | Some z => Ret z
  | None => Raise ValueError
  end.

(** [d[k]] *)
Definition getitem (d : gmap string HSCode) (k : string) : outcome HSCode :=
  match d !! k with
  | Some hs => Ret hs
  | None => Raise KeyError
  end.

(** The body of the loop at lines 137 to 149. *)
Definition build_trade (all_hs : gmap string HSCode) (row : Row)
    : outcome TradeDataObj :=
  obind (int (r_year row)) (λ y,
  obind (int (r_month row)) (λ m,
  obind (getitem all_hs (text (r_hs_code row))) (λ hs,
  Ret (mkTradeData y m (text (r_trade_type row)) hs
         (Some (text (r_country row))) (r_quantity row) None
         (r_value_usd row))))).

(** [df[["hs_code", "description"]].drop_duplicates()] *)
Definition unique_hs_codes (df : list Row) : list (string * string) :=
  drop_duplicates ((λ r, (text (r_hs_code r), text (r_description r))) <$> df).

(** The loop at lines 120 to 127. *)
Definition new_hs_objects (existing_hs : gmap string HSCode)
    (unique : list (string * string)) : list HSCode :=
  (λ p, HSCode_init p.1 p.2) <$> filter (λ p, existing_hs !! p.1 = None) unique.

(** Lines 110 to 133: the catalog entries the batch needs. *)
Definition resolve_hs_codes (df : list Row) : M (gmap string HSCode) :=
  (existing <- HSCode_filter_code_in ((unique_hs_codes df).*1) ;;
   let existing_hs := dict_by_code existing in
   exec (match new_hs_objects existing_hs (unique_hs_codes df) with
         | [] => ret tt
         | objs => HSCode_bulk_create objs
         end) ;;
   reloaded <- HSCode_filter_code_in ((λ r, text (r_hs_code r)) <$> df) ;;
   ret (dict_by_code reloaded))%db.

(** [TradeUploadView.process_dataframe] *)
Definition process_dataframe (df : DataFrame) : M nat :=
  (df' <- lift (normalize (rows df)) ;;
   all_hs <- resolve_hs_codes df' ;;
   trade_objects <- lift (omapM (build_trade all_hs) df') ;;
   exec atomic (TradeData_bulk_create trade_objects) ;;
   ret (length trade_objects))%db.

(** ** Reading an uploaded file ([TradeUploadView.read_csv_safely]) *)

Inductive encoding : Type := utf_8 | latin1 | cp1252.

Global Instance encoding_eq_dec : EqDecision encoding.
Proof. solve_decision. Defined.

Module Codec.

Definition is_cont (b : Byte.byte) : bool :=
  let n := Byte.to_N b in ((128 <=? n) && (n <=? 191))%N.

(** The payload bits of a continuation byte. *)
Definition low6 (b : Byte.byte) : N := (Byte.to_N b - 128)%N.

(** Strict UTF-8: no overlong form, no surrogate, nothing above U+10FFFF,
    no truncated sequence. *)
Fixpoint utf8 (bs : list Byte.byte) : option (list N) :=
  match bs with
  | [] => Some []
  | b0 :: r0 =>
      let n0 := Byte.to_N b0 in
      if (n0 <? 128)%N then cons n0 <$> utf8 r0
      else if ((194 <=? n0) && (n0 <=? 223))%N then
        match r0 with
        | b1 :: r1 =>
            if is_cont b1
            then cons ((n0 - 192) * 64 + low6 b1)%N <$> utf8 r1
            else None
        | _ => None
        end
      else if ((224 <=? n0) && (n0 <=? 239))%N then
        match r0 with
        | b1 :: b2 :: r2 =>
            let cp := ((n0 - 224) * 4096 + low6 b1 * 64 + low6 b2)%N in
            if is_cont b1 && is_cont b2 && (2048 <=? cp)%N
               && negb ((55296 <=? cp) && (cp <=? 57343))%N
            then cons cp <$> utf8 r2
            else None
        | _ => None
        end
      else if ((240 <=? n0) && (n0 <=? 244))%N then
        match r0 with
        | b1 :: b2 :: b3 :: r3 =>
            let cp := ((n0 - 240) * 262144 + low6 b1 * 4096
                       + low6 b2 * 64 + low6 b3)%N in
            if is_cont b1 && is_cont b2 && is_cont b3
               && (65536 <=? cp)%N && (cp <=? 1114111)%N
            then cons cp <$> utf8 r3
            else None
        | _ => None
        end
      else None
  end.

(** ISO 8859-1: byte [n] is code point [n]. *)
Definition iso8859_1 (bs : list Byte.byte) : list N := Byte.to_N <$> bs.

(** Windows-1252: five bytes of the range 0x80..0x9F are unassigned. *)
Definition cp1252_char (b : Byte.byte) : option N :=
  let n := Byte.to_N b in
  if ((n <? 128) || (160 <=? n))%N then Some n
  else match n with
       | 128 => Some 8364 | 130 => Some 8218 | 131 => Some 402
       | 132 => Some 8222 | 133 => Some 8230 | 134 => Some 8224
       | 135 => Some 8225 | 136 => Some 710 | 137 => Some 8240
       | 138 => Some 352 | 139 => Some 8249 | 140 => Some 338
       | 142 => Some 381 | 145 => Some 8216 | 146 => Some 8217
       | 147 => Some 8220 | 148 => Some 8221 | 149 => Some 8226
       | 150 => Some 8211 | 151 => Some 8212 | 152 => Some 732
       | 153 => Some 8482 | 154 => Some 353 | 155 => Some 8250
       | 156 => Some 339 | 158 => Some 382 | 159 => Some 376
       | _ => None
       end%N.

Definition decode (enc : encoding) (bs : list Byte.byte) : option (list N) :=
  match enc with
  | utf_8 => utf8 bs
  | latin1 => Some (iso8859_1 bs)
  | cp1252 => mapM cp1252_char bs
  end.

End Codec.

Section Upload.

(** pandas, past the decoding of the bytes: [read_text] builds the frame
    from decoded text ([None]: the text is not a table, a parser error);
    [read_excel] is [pd.read_excel]. *)
Variable read_text : list N → option DataFrame.
Variable read_excel : list Byte.byte → outcome DataFrame.

Definition parse_text (txt : list N) : outcome DataFrame :=
  match read_text txt with
  | Some df => Ret df
  | None => Raise ParserError
  end.

(** [pd.read_csv(io.BytesIO(raw_data), encoding=enc)] *)
Definition pd_read_csv (enc : encoding) (raw_data : list Byte.byte)
    : outcome DataFrame :=
  match Codec.decode enc raw_data with
  | None => Raise UnicodeDecodeError
  | Some txt => parse_text txt
  end.

(** [TradeUploadView.read_csv_safely].  The first component lists the
    encodings handed to [pd.read_csv], in call order. *)
Definition read_csv_safely (raw_data : list Byte.byte)
    : list encoding * outcome DataFrame :=
  match pd_read_csv utf_8 raw_data with
  | Raise UnicodeDecodeError =>
      match pd_read_csv latin1 raw_data with
      | Raise UnicodeDecodeError =>
          ([utf_8; latin1; cp1252], pd_read_csv cp1252 raw_data)
      | r => ([utf_8; latin1], r)
      end
  | r => ([utf_8], r)
  end.

(** ** The upload view ([TradeUploadView.post]) *)

Record Request : Type := mkRequest {
  form_valid : bool;
  file_name : string;
  file_data : list Byte.byte;
}.

Inductive message : Type :=
  | error (text : string)
  | success (text : string).

Inductive Response : Type :=
  | render_form
  | redirect (m : message).

Definition required_columns : list string :=
  ["year"; "month"; "trade_type"; "hs_code"; "country"; "quantity";
   "description"; "value_usd"].

(** [required.issubset(cols)] *)
Definition issubset (required cols : list string) : bool :=
  forallb (λ c, bool_decide (c ∈ cols)) required.

(** [str(e)], up to the detail text of the exception. *)
Definition str_exn (e : exn) : string :=
  match e with
  | UnicodeDecodeError => "UnicodeDecodeError"
  | ParserError => "ParserError"
  | TypeError => "TypeError"
  | ValueError => "ValueError"
  | KeyError => "KeyError"
  | ZeroDivisionError => "ZeroDivisionError"
  | ValidationError => "ValidationError"
  | IntegrityError => "IntegrityError"
  | OverflowError => "OverflowError"
  end.

(** [try: body except Exception as e: handler(e)] *)
Definition try_except {A} (body : M A) (handler : exn → M A) : M A :=
  λ s, match body s with
       | (s', Raise e) => handler e s'
       | r => r
       end.

(** Lines 53 to 73: what [post] does with a decoded frame. *)
Definition load_frame (df : DataFrame) : M Response :=
  if negb (issubset required_columns (columns df))
  then ret (redirect (error "Missing required columns in file."))
  else (records_inserted <- process_dataframe df ;;
        ret (redirect (success (pretty records_inserted
                                 +:+ " records uploaded successfully."))))%db.

Definition post (request : Request) : M Response :=
  if negb (form_valid request) then ret render_form
  else
    let filename := Str.lower (file_name request) in
    try_except
      (if Str.endswith ".csv" filename then
         (df <- lift (read_csv_safely (file_data request)).2 ;; load_frame df)%db
       else if Str.endswith ".xlsx" filename then
         (df <- lift (read_excel (file_data request)) ;; load_frame df)%db
       else ret (redirect (error "Only CSV or Excel files are allowed.")))
      (λ e, ret (redirect (error ("Upload failed: " +:+ str_exn e)))).

End Upload.

(** ** Python's [decimal] arithmetic

    A [Decimal] is a coefficient and an exponent, with value
    [coef * 10 ^ expo].  The default context has 28 significant digits and
    rounds half to even.  A stored amount has exponent [-2]. *)

Module Decimal.

Record t : Type := mk { coef : Z; expo : Z }.

Definition prec : Z := 28.

Definition of_int (n : Z) : t := mk n 0.
Definition of_cents (n : Z) : t := mk n (-2).

(** Number of decimal digits of the coefficient, [len(str(abs(n)))]. *)
Definition ndigits (n : Z) : Z :=
  Z.of_nat (String.length (pretty (Z.abs n))).

(** [n / d] rounded to the nearest integer, ties to the even one
    ([0 < d]). *)
Definition div_half_even (n d : Z) : Z :=
  let q := n `div` d in
  let r := n `mod` d in
  if 2 * r <? d then q
  else if d <? 2 * r then q + 1
  else if Z.even q then q else q + 1.

(** Rounding a result to the precision of the context. *)
Definition fix_ (x : t) : t :=
  let n := ndigits (coef x) in
  if n <=? prec then x
  else
    let drop := n - prec in
    let c := div_half_even (coef x) (10 ^ drop) in
    if ndigits c <=? prec then mk c (expo x + drop)
    else mk (c `div` 10) (expo x + drop + 1).

(** [a / b]: the quotient is computed to one or two digits more than the
    precision, with a sticky last digit when it is inexact, then rounded. *)
Definition div (a b : t) : outcome t :=
  if bool_decide (coef b = 0) then Raise ZeroDivisionError
  else if bool_decide (coef a = 0) then Ret (mk 0 (expo a - expo b))
  else
    let sign := Z.sgn (coef a) * Z.sgn (coef b) in
    let ca := Z.abs (coef a) in
    let cb := Z.abs (coef b) in
    let shift := ndigits cb - ndigits ca + prec + 1 in
    let num := if 0 <=? shift then ca * 10 ^ shift else ca in
    let den := if 0 <=? shift then cb else cb * 10 ^ (- shift) in
    let q := num `div` den in
    let r := num `mod` den in
    let c := if bool_decide (r ≠ 0) && bool_decide (q `mod` 5 = 0)
             then q + 1 else q in
    Ret (fix_ (mk (sign * c) (expo a - expo b - shift))).

(** [a * b] *)
Definition mul (a b : t) : t :=
  fix_ (mk (coef a * coef b) (expo a + expo b)).

(** [round(x, 2)], in hundredths. *)
Definition round2 (x : t) : Z :=
  if -2 <=? expo x then coef x * 10 ^ (expo x + 2)
  else div_half_even (coef x) (10 ^ (- 2 - expo x)).

End Decimal.

(** [round((num / den) * 100, 2)] for two amounts, in hundredths. *)
Definition percent_of (num den : Z) : outcome Z :=
  obind (Decimal.div (Decimal.of_cents num) (Decimal.of_cents den)) (λ q,
  Ret (Decimal.round2 (Decimal.mul q (Decimal.of_int 100)))).

(** ** The dashboard ([TradeDataListView]) *)

(** The query string, [request.GET].  [year] and [month] are given as the
    integers they denote; [None] is an absent parameter. *)
Record QueryDict : Type := mkQuery {
  q_year : option Z;
  q_month : option Z;
  q_trade_type : option string;
  q_country : option string;
  q_search : option string;
  q_crop : option string;
}.

Fixpoint insert_by {A} (before : A → A → bool) (x : A) (l : list A) : list A :=
  match l with
  | [] => [x]
  | y :: l' => if before x y then x :: l else y :: insert_by before x l'
  end.

(** A stable sort. *)
Definition sort_by {A} (before : A → A → bool) (l : list A) : list A :=
  foldr (insert_by before) [] l.

(** [Meta.ordering = ["-year", "-month"]] *)
Definition Meta_ordering (a b : TradeData) : bool :=
  bool_decide (year b < year a)
  || (bool_decide (year a = year b) && bool_decide (month b ≤ month a)).

(** [TradeData.objects.all()], in the default order of the store.  The
    order among the records of one year and month is the backend's; they
    are kept in the order of insertion here, and no statement depends on
    it. *)
Definition objects_all (s : Store) : list TradeData :=
  sort_by Meta_ordering (trade_table s).

(** [field__icontains=needle] *)
Definition icontains (needle hay : string) : bool :=
  Str.contains (Str.lower needle) (Str.lower hay).

(** [TradeDataListView.get_queryset], for a query string whose [year] and
    [month], when given, are numbers: a [QueryDict] holds the integers
    they denote.  A value that is not a number makes the filter raise and
    is no [QueryDict]. *)
Definition get_queryset (GET : QueryDict) (s : Store) : list TradeData :=
  let queryset := objects_all s in
  let queryset :=
    match q_year GET with
    | Some y => filter (λ r, year r = y) queryset
    | None => queryset
    end in
  let queryset :=
    match q_month GET with
    | Some m => filter (λ r, month r = m) queryset
    | None => queryset
    end in
  let queryset :=
    match q_trade_type GET with
    | Some t =>
        if Str.truthy t then filter (λ r, trade_type r = t) queryset
        else queryset
    | None => queryset
    end in
  let queryset :=
    match q_country GET with
    | Some c =>
        if Str.truthy c then filter (λ r, country r = Some c) queryset
        else queryset
    | None => queryset
    end in
  let queryset :=
    match q_search GET with
    | Some w =>
        if Str.truthy w
        then filter (λ r, icontains w (code (hs_code r))
                          || icontains w (description (hs_code r))) queryset
        else queryset
    | None => queryset
    end in
  queryset.

Definition Zsum (l : list Z) : Z := foldr Z.add 0 l.

(** [queryset.aggregate(total=Sum(field))["total"]]: the sum over no row
    is [None]. *)
Definition Sum (field : TradeData → Z) (queryset : list TradeData) : option Z :=
  match queryset with
  | [] => None
  | _ => Some (Zsum (field <$> queryset))
  end.

(** [x or 0] *)
Definition or_0 (x : option Z) : Z := default 0 x.

(** [queryset.values(key).annotate(total_value=Sum("value_usd"))]: one item
    per distinct key, in the order the keys first occur. *)
Definition values_annotate `{EqDecision K} (key : TradeData → K)
    (queryset : list TradeData) : list (K * Z) :=
  (λ k, (k, Zsum (value_usd <$> filter (λ r, key r = k) queryset)))
    <$> drop_duplicates (key <$> queryset).

(** [.order_by("-total_value")] *)
Definition order_by_total_desc {K} (items : list (K * Z)) : list (K * Z) :=
  sort_by (λ a b, bool_decide (b.2 ≤ a.2)) items.

Record SplitItem : Type := mkSplitItem {
  item_trade_type : string;
  item_total_value : Z;
  percentage : Z;
}.

(** The keys of the template context the analytics fill.  Amounts and
    percentages are in hundredths. *)
Record Context : Type := mkContext {
  total_quantity : Z;
  total_value : Z;
  total_records : nat;
  top_countries : list (option string * Z);
  top_hs_codes : list (string * string * Z);
  trade_split : list SplitItem;
  concentration_ratio : Z;
  trade_balance : Z;
}.

(** The body of the loop at lines 238 to 242. *)
Definition split_percentage (total_trade : Z) (item : string * Z)
    : outcome SplitItem :=
  if bool_decide (0 < total_trade)
  then obind (percent_of item.2 total_trade)
         (λ p, Ret (mkSplitItem item.1 item.2 p))
  else Ret (mkSplitItem item.1 item.2 0).

(** Lines 203 to 268 of [get_context_data], on the filtered queryset. *)
Definition analytics (filtered_queryset : list TradeData) : outcome Context :=
  let total_quantity := or_0 (Sum quantity filtered_queryset) in
  let total_value := or_0 (Sum value_usd filtered_queryset) in
  let total_records := length filtered_queryset in
  let top_countries :=
    take 10 (order_by_total_desc
      (values_annotate country
        (filter (λ r, country r ≠ Some "")
          (filter (λ r, country r ≠ None) filtered_queryset)))) in
  let top_hs_codes :=
    take 10 (order_by_total_desc
      (values_annotate (λ r, (code (hs_code r), description (hs_code r)))
        filtered_queryset)) in
  let trade_split := values_annotate trade_type filtered_queryset in
  let total_trade := Zsum (trade_split.*2) in
  obind (omapM (split_percentage total_trade) trade_split) (λ trade_split,
  let top_total := Zsum (top_hs_codes.*2) in
  let overall_total := or_0 (Sum value_usd filtered_queryset) in
  obind (if bool_decide (0 < overall_total)
         then percent_of top_total overall_total
         else Ret 0) (λ concentration_ratio,
  let exports :=
    or_0 (Sum value_usd (filter (λ r, trade_type r = "Export") filtered_queryset)) in
  let imports :=
    or_0 (Sum value_usd (filter (λ r, trade_type r = "Import") filtered_queryset)) in
  Ret (mkContext total_quantity total_value total_records top_countries
         top_hs_codes trade_split concentration_ratio (exports - imports)))).

(** [TradeDataListView.get_context_data], without the pagination of
    [ListView], which answers 404 to a page out of range, and the four
    lists of filter choices. *)
Definition get_context_data (GET : QueryDict) (s : Store) : outcome Context :=
  let filtered_queryset := get_queryset GET s in
  analytics filtered_queryset.

(** ** The export view ([export_filtered_data]) *)

(** [str(d)] for a decimal with two places. *)
Definition str_decimal (d : Z) : string :=
  let a := Z.abs d in
  (if bool_decide (d < 0) then "-" else "")
  +:+ pretty (a `div` 100) +:+ "."
  +:+ (if bool_decide (a `mod` 100 < 10) then "0" else "")
  +:+ pretty (a `mod` 100).

Definition csv_header : list string :=
  ["Year"; "Month"; "Country"; "HS Code"; "Description"; "Trade Type";
   "Quantity"; "Value (USD)"].

Definition csv_row (obj : TradeData) : list string :=
  [pretty (year obj); pretty (month obj); default "" (country obj);
   code (hs_code obj); description (hs_code obj); trade_type obj;
   str_decimal (quantity obj); str_decimal (value_usd obj)].

(** The rows handed to [csv.writer], header first. *)
Definition export_filtered_data (GET : QueryDict) (s : Store)
    : list (list string) :=
  let queryset := objects_all s in
  let queryset :=
    match q_year GET with
    | Some y => filter (λ r, year r = y) queryset
    | None => queryset
    end in
  let queryset :=
    match q_month GET with
    | Some m => filter (λ r, month r = m) queryset
    | None => queryset
    end in
  let queryset :=
    match q_crop GET with
    | Some c =>
        if Str.truthy c
        then filter (λ r, description (hs_code r) = c) queryset
        else queryset
    | None => queryset
    end in
  let queryset :=
    match q_country GET with
    | Some c =>
        if Str.truthy c then filter (λ r, country r = Some c) queryset
        else queryset
    | None => queryset
    end in
  csv_header :: (csv_row <$> queryset).

(** ** The rest of the models and of the dashboard *)

(** [s[:n]] *)
Fixpoint slice_to (n : nat) (s : string) : string :=
  match n, s with
  | S n', String c s' => String c (slice_to n' s')
  | _, _ => EmptyString
  end.

(** The three assignments of [HSCode.save], lines 21 to 23 of
    [models.py]. *)
Definition HSCode_derive (self : HSCode) : HSCode :=
  mkHSCode (code self) (description self)
    (slice_to 2 (code self)) (slice_to 4 (code self)) (slice_to 6 (code self)).

(** [HSCode.save] on an instance that is not in the table yet:
    [super().save()] is then one [INSERT].  The result is the instance as
    [save] leaves it. *)
Definition HSCode_save (self : HSCode) : M HSCode :=
  (let self := HSCode_derive self in
   exec insert_hs self ;; ret self)%db.

(** [TradeData.objects.values_list(field, flat=True).distinct()
    .order_by(field)] *)
Definition distinct_ordered `{EqDecision A} (le : A → A → bool)
    (values : list A) : list A :=
  sort_by le (drop_duplicates values).

(** Ascending order of a nullable text column: null first, then text
    byte by byte. *)
Definition text_le (a b : option string) : bool :=
  match a, b with
  | None, _ => true
  | Some _, None => false
  | Some x, Some y => String.leb x y
  end.

(** The four lists of filter choices, lines 270 to 291 of
    [get_context_data]: they are read from the whole table. *)
Record FilterChoices : Type := mkFilterChoices {
  years : list Z;
  months : list Z;
  trade_types : list string;
  countries : list (option string);
}.

Definition filter_choices (s : Store) : FilterChoices :=
  mkFilterChoices
    (distinct_ordered Z.leb (year <$> trade_table s))
    (distinct_ordered Z.leb (month <$> trade_table s))
    (distinct_ordered String.leb (trade_type <$> trade_table s))
    (distinct_ordered text_le (country <$> trade_table s)).

(** ** Notions used in the statements *)

(** The three cell-wise steps of [normalize], on one row. *)
Definition canonical (r : Row) : Row :=
  upper_trade_type (strip_hs_code (fillna r)).

(** The month cell holds a number of the range 1..12. *)
Definition month_ok (r : Row) : bool :=
  match r_month r with
  | Some m => bool_decide (1 ≤ m ≤ 12)
  | None => false
  end.

(** The text of the first encoding of [chain] that decodes [raw]. *)
Fixpoint first_decodable (chain : list encoding) (raw : list Byte.byte)
    : option (list N) :=
  match chain with
  | [] => None
  | enc :: chain' =>
      match Codec.decode enc raw with
      | Some txt => Some txt
      | None => first_decodable chain' raw
      end
  end.

(** The catalog entries [resolve_hs_codes] hands to [bulk_create] for the
    normalized rows [df], over the store [s]. *)
Definition catalog_additions (df : list Row) (s : Store) : list HSCode :=
  new_hs_objects
    (dict_by_code (filter (λ h, code h ∈ (unique_hs_codes df).*1) (hs_table s)))
    (unique_hs_codes df).

(** What [analytics] returns, key by key. *)
Record analytics_spec (qs : list TradeData) (ctx : Context) : Prop := {
  spec_total_quantity : total_quantity ctx = or_0 (Sum quantity qs);
  spec_total_value : total_value ctx = or_0 (Sum value_usd qs);
  spec_total_records : total_records ctx = length qs;
  spec_top_countries :
    top_countries ctx =
    take 10 (order_by_total_desc
      (values_annotate country
        (filter (λ r, country r ≠ Some "")
          (filter (λ r, country r ≠ None) qs))));
  spec_top_hs_codes :
    top_hs_codes ctx =
    take 10 (order_by_total_desc
      (values_annotate (λ r, (code (hs_code r), description (hs_code r))) qs));
  spec_trade_split :
    Forall2 (λ item x,
        split_percentage (Zsum ((values_annotate trade_type qs).*2)) item = Ret x)
      (values_annotate trade_type qs) (trade_split ctx);
  spec_concentration_ratio :
    Ret (concentration_ratio ctx) =
    if bool_decide (0 < or_0 (Sum value_usd qs))
    then percent_of (Zsum ((top_hs_codes ctx).*2)) (or_0 (Sum value_usd qs))
    else Ret 0;
  spec_trade_balance :
    trade_balance ctx =
    or_0 (Sum value_usd (filter (λ r, trade_type r = "Export") qs))
    - or_0 (Sum value_usd (filter (λ r, trade_type r = "Import") qs));
}.

(** ** Notions used in the further statements *)

(** The record an upload stores for the row [r] of the file. *)
Definition stored_as (r : Row) (t : TradeData) : Prop :=
  r_year r = Some (year t)
  ∧ r_month r = Some (month t)
  ∧ trade_type t = Str.strip (Str.upper (text (r_trade_type r)))
  ∧ code (hs_code t) = Str.strip (text (r_hs_code r))
  ∧ country t = Some (text (r_country r))
  ∧ r_quantity r = Some (quantity t)
  ∧ unit_ t = None
  ∧ r_value_usd r = Some (value_usd t).

(** Text of ASCII characters: on it [Str.upper] and [Str.strip] are
    [str.upper] and [str.strip]. *)
Fixpoint ascii_text (s : string) : bool :=
  match s with
  | EmptyString => true
  | String c s' => (nat_of_ascii c <? 128)%nat && ascii_text s'
  end.

(** An amount of at most 15 digits: it fits the 18 digits of the column,
    and the database hands it back as it was written. *)
Definition small_amount (c : option Z) : Prop :=
  ∀ a, c = Some a → - 10 ^ 15 < a < 10 ^ 15.

(** A row of plain data: the two cells the upload transforms are ASCII
    text and the two amounts are small. *)
Definition plain_row (r : Row) : Prop :=
  ascii_text (text (r_trade_type r))
  ∧ ascii_text (text (r_hs_code r))
  ∧ small_amount (r_quantity r)
  ∧ small_amount (r_value_usd r).

(** An upload of plain data: the rows to store are plain, and their
    distinct codes are no more than the 999 parameters SQLite takes in
    the statement that looks them up. *)
Definition plain_upload (df : DataFrame) : Prop :=
  (∀ r, r ∈ rows df → month_ok r → plain_row r)
  ∧ (length (drop_duplicates
               ((λ r, Str.strip (text (r_hs_code r)))
                  <$> filter (λ r, month_ok r) (rows df))) ≤ 999)%nat.

(** The catalog entry an upload creates for the row [r]. *)
Definition created_for (r : Row) (h : HSCode) : Prop :=
  h = HSCode_init (Str.strip (text (r_hs_code r))) (text (r_description r)).

(** The record [r] passes the filters the query string gives to the
    dashboard: an absent or empty parameter filters nothing. *)
Definition matches (GET : QueryDict) (r : TradeData) : Prop :=
  (∀ y, q_year GET = Some y → year r = y)
  ∧ (∀ m, q_month GET = Some m → month r = m)
  ∧ (∀ t, q_trade_type GET = Some t → t ≠ "" → trade_type r = t)
  ∧ (∀ c, q_country GET = Some c → c ≠ "" → country r = Some c)
  ∧ (∀ w, q_search GET = Some w → w ≠ "" →
       icontains w (code (hs_code r)) = true
       ∨ icontains w (description (hs_code r)) = true).

(** The same for the filters of the export. *)
Definition export_matches (GET : QueryDict) (r : TradeData) : Prop :=
  (∀ y, q_year GET = Some y → year r = y)
  ∧ (∀ m, q_month GET = Some m → month r = m)
  ∧ (∀ c, q_crop GET = Some c → c ≠ "" → description (hs_code r) = c)
  ∧ (∀ c, q_country GET = Some c → c ≠ "" → country r = Some c).

(** [a] may come before [b] in the default order: a later year, or the
    same year and a month that is not earlier. *)
Definition newest_first (a b : TradeData) : Prop :=
  year b < year a ∨ (year a = year b ∧ month b ≤ month a).

(** An optional filter, with a guard on the value of the parameter. *)
Definition opt_filter {V} (o : option V) (guard : V → bool)
    (P : V → TradeData → Prop) {dec : ∀ v r, Decision (P v r)}
    (qs : list TradeData) : list TradeData :=
  match o with
  | Some v => if guard v then filter (P v) qs else qs
  | None => qs
  end.

(** [top] is the [n] largest of [items] by total, largest first: it has
    [n] items, or all of them when there are fewer; its totals descend;
    and no item left out has a larger total than an item kept. *)
Record is_top_of {K} (n : nat) (top items : list (K * Z)) : Prop := {
  top_length : length top = (n `min` length items)%nat;
  top_items : top ⊆+ items;
  top_descending : StronglySorted (λ a b, b.2 ≤ a.2) top;
  top_largest : ∀ x y, x ∈ top → y ∈ items → y ∉ top → y.2 ≤ x.2;
}.

(** ** Sample data *)

Module Examples.

Definition horses : HSCode := HSCode_init "0101" "Horses".
Definition maize : HSCode := HSCode_init "1005" "Maize".

Definition empty_store : Store := mkStore [] [].

Definition no_filter : QueryDict := mkQuery None None None None None None.

(** An import worth 100.00 and an export worth 300.00. *)
Definition import_100 : TradeData :=
  mkTradeData 2024 3 "IMPORT" horses (Some "Kenya") 500 None 10000.
Definition export_300 : TradeData :=
  mkTradeData 2024 4 "EXPORT" maize (Some "Uganda") 700 None 30000.

(** The same two shipments as rows of an uploaded file. *)
Definition import_row : Row :=
  mkRow (Some 2024) (Some 3) (Some "Import") (Some "0101") (Some "Kenya")
    (Some 500) (Some "Horses") (Some 10000).
Definition export_row : Row :=
  mkRow (Some 2024) (Some 4) (Some "export ") (Some " 1005") (Some "Uganda")
    (Some 700) (Some "Maize") (Some 30000).
Definition two_rows : DataFrame :=
  mkDataFrame required_columns [import_row; export_row].



(** Uploads that fail after the catalog step: a blank year stops the
    construction of the records, a blank value stops their insertion. *)
Definition blank_year_row : Row :=
  mkRow None (Some 7) (Some "import") (Some "0101") (Some "Kenya")
    (Some 500) (Some "Horses") (Some 10000).
Definition blank_value_row : Row :=
  mkRow (Some 2024) (Some 7) (Some "import") (Some "0101") (Some "Kenya")
    (Some 500) (Some "Horses") None.
Definition blank_year_batch : DataFrame :=
  mkDataFrame required_columns [export_row; blank_year_row].
Definition blank_value_batch : DataFrame :=
  mkDataFrame required_columns [export_row; blank_value_row].

(** A row of month 13 and a row of month 12. *)
Definition month_13_row : Row :=
  mkRow (Some 2024) (Some 13) (Some "export") (Some "1005") (Some "Uganda")
    (Some 700) (Some "Maize") (Some 30000).
Definition month_12_row : Row :=
  mkRow (Some 2024) (Some 12) (Some "export") (Some "1005") (Some "Uganda")
    (Some 700) (Some "Maize") (Some 30000).
Definition month_batch : DataFrame :=
  mkDataFrame required_columns [month_13_row; month_12_row].
Definition december : TradeData :=
  mkTradeData 2024 12 "EXPORT" maize (Some "Uganda") 700 None 30000.

(** One code with two descriptions. *)
Definition horses_row : Row :=
  mkRow (Some 2024) (Some 3) (Some "import") (Some "0101") (Some "Kenya")
    (Some 500) (Some "Horses") (Some 10000).
Definition live_horses_row : Row :=
  mkRow (Some 2024) (Some 4) (Some "import") (Some "0101") (Some "Kenya")
    (Some 200) (Some "Live horses") (Some 4000).
Definition two_descriptions : DataFrame :=
  mkDataFrame required_columns [horses_row; live_horses_row].

(** The dashboard and the export opened with [?trade_type=IMPORT]. *)
Definition imports_only : QueryDict :=
  mkQuery None None (Some "IMPORT") None None None.
Definition two_shipments : Store :=
  mkStore [horses; maize] [import_100; export_300].

(** A file without a [year] column. *)
Definition no_year_frame : DataFrame :=
  mkDataFrame ["month"; "trade_type"; "hs_code"; "country"; "quantity";
               "description"; "value_usd"] [].
Definition csv_upload : Request := mkRequest true "Trade.CSV" [].

(** "e acute" in ISO 8859-1, and a byte Windows-1252 leaves unassigned. *)
Definition e_acute : list Byte.byte := [Byte.xe9].
Definition unassigned : list Byte.byte := [Byte.x81].

End Examples.

Module MoreExamples.

(** The store after the upload of [Examples.two_rows] into an empty
    store. *)
Definition after_two_rows : Store :=
  mkStore [Examples.horses; Examples.maize]
    [Examples.import_100; Examples.export_300].

(** A query string with a year only. *)
Definition year_2024 : QueryDict :=
  mkQuery (Some 2024) None None None None None.

(** A new catalog entry with a code of six digits. *)
Definition pure_bred_horses : HSCode := HSCode_init "010121" "Pure-bred horses".

(** A row whose year does not fit an integer of 64 bits. *)
Definition far_year_row : Row :=
  mkRow (Some (2 ^ 63)) (Some 7) (Some "import") (Some "0101") (Some "Kenya")
    (Some 500) (Some "Horses") (Some 10000).
Definition far_year_batch : DataFrame :=
  mkDataFrame required_columns [Examples.import_row; far_year_row].

(** The bytes of the text "a,b". *)
Definition ascii_bytes : list Byte.byte := [Byte.x61; Byte.x2c; Byte.x62].

End MoreExamples.

(** * Proofs *)

#[local] Set Warnings "-clear-no-such-hyp".

(** ** Exceptions *)

Lemma obind_Ret {A B} (x : outcome A) (k : A → outcome B) (b : B) :
  obind x k = Ret b ↔ ∃ a, x = Ret a ∧ k a = Ret b.
Proof.
  destruct x as [a|e]; simpl; split.
  - eauto.
  - intros (a' & [= <-] & Hk). done.
  - done.
  - intros (a' & [=] & _).
Qed.

Section Outcome.
Context {A B : Type}.

Lemma omapM_Forall2 (f : A → outcome B) (l : list A) (ys : list B) :
  omapM f l = Ret ys ↔ Forall2 (λ x y, f x = Ret y) l ys.
Proof.
  revert ys. induction l as [|x l IH]; intros ys; simpl.
  - split.
    + intros [= <-]. constructor.
    + intros H. inversion H. done.
  - split.
    + intros (y & Hy & H)%obind_Ret.
      apply obind_Ret in H as (ys' & Hys' & [= <-]).
      constructor; [done | by apply IH].
    + intros H. inversion H as [|? y ? ys' Hy Hrest]; subst.
      rewrite Hy. simpl. apply IH in Hrest. by rewrite Hrest.
Qed.

Lemma omapM_length (f : A → outcome B) (l : list A) (ys : list B) :
  omapM f l = Ret ys → length ys = length l.
Proof. intros H%omapM_Forall2. symmetry. by eapply Forall2_length. Qed.

End Outcome.

(** ** Lists: duplicates, sorting, sums *)

Section ListFacts.
Context `{EqDecision A}.

Lemma elem_of_drop_duplicates (l : list A) (x : A) :
  x ∈ drop_duplicates l ↔ x ∈ l.
Proof.
  induction l as [|y l IH]; simpl; [done|].
  rewrite !elem_of_cons, list_elem_of_filter, IH.
  destruct (decide (x = y)); naive_solver.
Qed.

Lemma NoDup_drop_duplicates (l : list A) : NoDup (drop_duplicates l).
Proof.
  induction l as [|y l IH]; simpl; [constructor|].
  apply NoDup_cons. split.
  - rewrite list_elem_of_filter. naive_solver.
  - by apply NoDup_filter.
Qed.



End ListFacts.









(** ** The analytics never raise *)

Lemma percent_of_defined (num den : Z) :
  den ≠ 0 → ∃ p, percent_of num den = Ret p.
Proof.
  intros Hden. unfold percent_of, Decimal.div. cbn [Decimal.coef Decimal.of_cents].
  rewrite bool_decide_false by done.
  destruct (bool_decide (num = 0)); cbn [obind]; eauto.
Qed.

Lemma split_percentage_defined (total_trade : Z) (item : string * Z) :
  ∃ p, split_percentage total_trade item = Ret (mkSplitItem item.1 item.2 p)
       ∧ Ret p = if bool_decide (0 < total_trade)
                 then percent_of item.2 total_trade else Ret 0.
Proof.
  unfold split_percentage. case_bool_decide as Hpos.
  - destruct (percent_of_defined item.2 total_trade) as [p Hp]; [lia|].
    exists p. by rewrite Hp.
  - by exists 0.
Qed.


Lemma omapM_defined {A B} (f : A → outcome B) (l : list A) :
  (∀ x, x ∈ l → ∃ y, f x = Ret y) → ∃ ys, omapM f l = Ret ys.
Proof.
  induction l as [|x l IH]; intros H; [by exists []|].
  destruct (H x) as [y Hy]; [left|].
  destruct IH as [ys Hys]; [intros z Hz; apply H; by right|].
  exists (y :: ys). cbn [omapM]. by rewrite Hy, Hys.
Qed.

Lemma analytics_inv (qs : list TradeData) (ctx : Context) :
  analytics qs = Ret ctx → analytics_spec qs ctx.
Proof.
  unfold analytics. intros (split & Hsplit & H)%obind_Ret.
  apply obind_Ret in H as (ratio & Hratio & [= <-]).
  split; cbn; first [done | by apply omapM_Forall2].
Qed.

Lemma analytics_defined (qs : list TradeData) : ∃ ctx, analytics qs = Ret ctx.
Proof.
  unfold analytics.
  destruct (omapM_defined
    (split_percentage (Zsum ((values_annotate trade_type qs).*2)))
    (values_annotate trade_type qs)) as [split ->].
  { intros item _. destruct (split_percentage_defined
      (Zsum ((values_annotate trade_type qs).*2)) item) as (p & -> & _). eauto. }
  cbn [obind]. case_bool_decide as Hpos.
  - edestruct percent_of_defined as [p ->]; [|cbn [obind]; eauto]. lia.
  - cbn [obind]. eauto.
Qed.


(** ** Empty views (C4) *)

(** C4.  When no record matches the filter, [get_context_data] returns
    (it does not raise) a context whose three totals, concentration ratio
    and trade balance are zero and whose two top-10 lists, and the split,
    are empty. *)
Theorem empty_view_metrics (GET : QueryDict) (s : Store) :
  get_queryset GET s = [] →
  get_context_data GET s = Ret (mkContext 0 0 0 [] [] [] 0 0).
Proof. unfold get_context_data. intros ->. reflexivity. Qed.

Lemma empty_view_metrics_witness :
  get_context_data (mkQuery (Some 1999) None None None None None)
    (mkStore [Examples.horses] [Examples.import_100])
  = Ret (mkContext 0 0 0 [] [] [] 0 0)
  ∧ get_context_data Examples.no_filter Examples.empty_store
    = Ret (mkContext 0 0 0 [] [] [] 0 0).
Proof.
  split; apply empty_view_metrics; vm_compute; reflexivity.
Defined.

(** ** Trade balance (C1) *)

Lemma filter_none {A} (P : A → Prop) `{!∀ x, Decision (P x)} (l : list A) :
  (∀ x, x ∈ l → ¬ P x) → filter P l = [].
Proof.
  induction l as [|x l IH]; intros Hl; [done|].
  rewrite filter_cons. destruct (decide (P x)) as [HP|_].
  - exfalso. by apply (Hl x); [left|].
  - apply IH. intros y Hy. apply Hl. by right.
Qed.

(** Over records whose direction is spelled as the upload stores it, both
    filters of the balance select nothing. *)
Lemma trade_balance_upper_case (qs : list TradeData) (ctx : Context) :
  (∀ r, r ∈ qs → trade_type r = "IMPORT" ∨ trade_type r = "EXPORT") →
  analytics qs = Ret ctx → trade_balance ctx = 0.
Proof.
  intros Hdir [_ _ _ _ _ _ _ ->]%analytics_inv.
  rewrite !filter_none; [done | |].
  - intros r Hr. destruct (Hdir r Hr) as [-> | ->]; discriminate.
  - intros r Hr. destruct (Hdir r Hr) as [-> | ->]; discriminate.
Qed.

(** C1.  Uploading an import of 100.00 and an export of 300.00 into an
    empty store and opening the dashboard without a filter: the two
    records are stored with the directions IMPORT and EXPORT, their export
    total minus their import total is 200.00, and the reported trade
    balance is 0. *)
Theorem trade_balance_after_upload :
  ∃ s ctx,
    process_dataframe Examples.two_rows Examples.empty_store = (s, Ret 2%nat)
    ∧ trade_table s = [Examples.import_100; Examples.export_300]
    ∧ get_context_data Examples.no_filter s = Ret ctx
    ∧ Zsum (value_usd <$> filter (λ r, trade_type r = "EXPORT")
                            (get_queryset Examples.no_filter s))
      - Zsum (value_usd <$> filter (λ r, trade_type r = "IMPORT")
                              (get_queryset Examples.no_filter s)) = 20000
    ∧ trade_balance ctx = 0.
Proof.
  eexists _, _. split; [vm_compute; reflexivity|].
  split; [reflexivity|]. split; [vm_compute; reflexivity|].
  split; vm_compute; reflexivity.
Qed.

(** ** Direction split (C5) *)

Lemma values_annotate_keys `{EqDecision K} (key : TradeData → K)
    (qs : list TradeData) :
  (values_annotate key qs).*1 = drop_duplicates (key <$> qs).
Proof.
  unfold values_annotate. rewrite <- list_fmap_compose.
  rewrite <- (list_fmap_id (drop_duplicates _)) at 2.
  by apply list_fmap_ext.
Qed.







(** ** Sorting and the largest items *)

Section Sorting.
Context {A : Type} (before : A → A → bool).

Lemma insert_by_Permutation (x : A) (l : list A) :
  insert_by before x l ≡ₚ x :: l.
Proof.
  induction l as [|y l IH]; cbn [insert_by]; [done|].
  destruct (before x y); [done|].
  rewrite IH. apply Permutation_swap.
Qed.

Lemma sort_by_Permutation (l : list A) : sort_by before l ≡ₚ l.
Proof.
  unfold sort_by. induction l as [|x l IH]; cbn [foldr]; [done|].
  by rewrite insert_by_Permutation, IH.
Qed.


Hypothesis before_total : ∀ a b, before a b = false → before b a = true.

Lemma insert_by_Sorted (x : A) (l : list A) :
  Sorted (λ a b, before a b = true) l →
  Sorted (λ a b, before a b = true) (insert_by before x l).
Proof.
  induction 1 as [|y l Hl IH Hhd]; cbn [insert_by].
  - by repeat constructor.
  - destruct (before x y) eqn:Hxy.
    + constructor; [by constructor|]. by constructor.
    + constructor; [done|].
      destruct Hhd as [|z l Hyz]; cbn [insert_by].
      * constructor. by apply before_total.
      * destruct (before x z); constructor; [by apply before_total | done].
Qed.

Lemma sort_by_Sorted (l : list A) :
  Sorted (λ a b, before a b = true) (sort_by before l).
Proof.
  unfold sort_by. induction l as [|x l IH]; cbn [foldr]; [constructor|].
  by apply insert_by_Sorted.
Qed.

End Sorting.

Lemma StronglySorted_sublist {A} (R : relation A) (l k : list A) :
  l `sublist_of` k → StronglySorted R k → StronglySorted R l.
Proof.
  induction 1 as [|x l k Hsub IH|x l k Hsub IH]; intros Hk.
  - constructor.
  - apply StronglySorted_cons in Hk as [Hx Hk].
    apply StronglySorted_cons. split; [|by apply IH].
    apply Forall_forall. intros y Hy. rewrite Forall_forall in Hx.
    apply Hx. by apply (elem_of_sublist l k).
  - apply StronglySorted_cons in Hk as [_ Hk]. by apply IH.
Qed.

Lemma Sorted_weaken {A} (R R' : relation A) (l : list A) :
  (∀ a b, R a b → R' a b) → Sorted R l → Sorted R' l.
Proof.
  intros Himpl. induction 1 as [|x l _ IH Hhd]; constructor; [done|].
  destruct Hhd; constructor. by apply Himpl.
Qed.

Lemma order_by_total_desc_sorted {K} (items : list (K * Z)) :
  StronglySorted (λ a b, b.2 ≤ a.2) (order_by_total_desc items).
Proof.
  apply Sorted_StronglySorted; [intros a b c; lia|].
  unfold order_by_total_desc.
  apply (Sorted_weaken (λ a b : K * Z, bool_decide (b.2 ≤ a.2) = true)).
  - intros a b. by rewrite bool_decide_eq_true.
  - apply sort_by_Sorted. intros a b.
    rewrite bool_decide_eq_false, bool_decide_eq_true. lia.
Qed.

Lemma top_of_items {K} (n : nat) (items : list (K * Z)) :
  is_top_of n (take n (order_by_total_desc items)) items.
Proof.
  pose proof (sort_by_Permutation (λ a b : K * Z, bool_decide (b.2 ≤ a.2)) items)
    as Hperm. fold (order_by_total_desc items) in Hperm.
  pose proof (order_by_total_desc_sorted items) as Hsorted.
  split.
  - by rewrite length_take, Hperm.
  - etrans; [apply sublist_submseteq, sublist_take | by apply Permutation_submseteq].
  - eapply StronglySorted_sublist; [apply sublist_take | done].
  - intros x y Hx Hy Hnot. rewrite <- Hperm in Hy.
    rewrite <- (take_drop n (order_by_total_desc items)) in Hy, Hsorted.
    apply elem_of_app in Hy as [Hy | Hy]; [done|].
    apply StronglySorted_app in Hsorted as (Hcross & _ & _).
    by apply Hcross.
Qed.

(** ** Records without a country (C10) *)





(** ** Writes of the upload *)

Lemma insert_all_hs_spec (objs : list HSCode) (s s' : Store) (r : outcome unit) :
  insert_all insert_hs objs s = (s', r) →
  trade_table s' = trade_table s
  ∧ match r with
    | Ret _ => hs_table s' = hs_table s ++ objs
    | Raise _ => True
    end.
Proof.
  revert s. induction objs as [|o objs IH]; intros s; cbn [insert_all].
  - intros [= <- <-]. by rewrite app_nil_r.
  - unfold bind, insert_hs. case_bool_decide.
    + by intros [= <- <-].
    + intros [Ht Hh]%IH. cbn in Ht, Hh. split; [done|].
      destruct r; [|done]. by rewrite Hh, <- app_assoc.
Qed.

Lemma insert_all_trade_spec (ts : list TradeData) (s s' : Store)
    (r : outcome unit) :
  insert_all insert_trade ts s = (s', r) →
  hs_table s' = hs_table s
  ∧ match r with
    | Ret _ => trade_table s' = trade_table s ++ ts
    | Raise _ => True
    end.
Proof.
  revert s. induction ts as [|t ts IH]; intros s; cbn [insert_all].
  - intros [= <- <-]. by rewrite app_nil_r.
  - unfold bind, insert_trade.
    destruct (bool_decide (0 ≤ year t) && bool_decide (0 ≤ month t)
              && bool_decide (is_Some (country t))).
    + intros [Hh Ht]%IH. cbn in Ht, Hh. split; [done|].
      destruct r; [|done]. by rewrite Ht, <- app_assoc.
    + by intros [= <- <-].
Qed.

(** Binding the parameters changes no record. *)
Lemma omapM_bind_parameters (ts ts' : list TradeData) :
  omapM bind_parameters ts = Ret ts' →
  ts' = ts ∧ Forall (λ t, int64 (year t) = true ∧ int64 (month t) = true) ts.
Proof.
  revert ts'. induction ts as [|t ts IH]; intros ts'; cbn [omapM].
  - by intros [= <-].
  - unfold bind_parameters at 1.
    destruct (int64 (year t)) eqn:Hy; [|done].
    destruct (int64 (month t)) eqn:Hm; [|done]. cbn.
    destruct (omapM bind_parameters ts) as [ys|e]; [|done].
    intros [= <-]. destruct (IH _ eq_refl) as [-> Hall].
    split; [done|]. by constructor.
Qed.

Lemma HSCode_bulk_create_spec (objs : list HSCode) (s s' : Store)
    (r : outcome unit) :
  HSCode_bulk_create objs s = (s', r) →
  match r with
  | Ret _ => s' = mkStore (hs_table s ++ objs) (trade_table s)
  | Raise _ => s' = s
  end.
Proof.
  unfold HSCode_bulk_create, atomic.
  destruct (insert_all insert_hs objs s) as [s1 [u|e]] eqn:Hins.
  - intros [= <- <-]. apply insert_all_hs_spec in Hins as [Ht Hh].
    destruct s1. cbn in *. by subst.
  - by intros [= <- <-].
Qed.

Lemma TradeData_bulk_create_spec (objs : list TradeDataObj) (s s' : Store)
    (r : outcome unit) :
  TradeData_bulk_create objs s = (s', r) →
  match r with
  | Ret _ => ∃ ts, omapM to_python objs = Ret ts
                   ∧ s' = mkStore (hs_table s) (trade_table s ++ ts)
  | Raise _ => s' = s
  end.
Proof.
  unfold TradeData_bulk_create, atomic, bind, lift.
  destruct (omapM to_python objs) as [ts|e] eqn:Hprep.
  - destruct (omapM bind_parameters ts) as [ts'|e] eqn:Hbind.
    + apply omapM_bind_parameters in Hbind as [-> _].
      destruct (insert_all insert_trade ts s) as [s1 [u|e]] eqn:Hins.
      * intros [= <- <-]. apply insert_all_trade_spec in Hins as [Hh Ht].
        exists ts. split; [done|]. destruct s1. cbn in *. by subst.
      * by intros [= <- <-].
    + by intros [= <- <-].
  - by intros [= <- <-].
Qed.

(** The catalog step writes catalog entries only: on success exactly the
    additions, on failure nothing. *)
Lemma resolve_hs_codes_store (df : list Row) (s s1 : Store)
    (r : outcome (gmap string HSCode)) :
  resolve_hs_codes df s = (s1, r) →
  trade_table s1 = trade_table s
  ∧ match r with
    | Ret _ => hs_table s1 = hs_table s ++ catalog_additions df s
    | Raise _ => s1 = s
    end.
Proof.
  unfold resolve_hs_codes, bind, HSCode_filter_code_in, ret.
  fold (catalog_additions df s).
  destruct (catalog_additions df s) as [|o objs] eqn:Hadd.
  - intros [= <- <-]. by rewrite app_nil_r.
  - destruct (HSCode_bulk_create (o :: objs) s) as [s2 [u|e]] eqn:Hbulk;
      apply HSCode_bulk_create_spec in Hbulk; intros [= <- <-]; by subst.
Qed.

(** [process_dataframe], step by step. *)
Lemma process_dataframe_cases (df : DataFrame) (s : Store) :
  match normalize (rows df) with
  | Raise e => process_dataframe df s = (s, Raise e)
  | Ret df' =>
      match resolve_hs_codes df' s with
      | (s1, Raise e) => process_dataframe df s = (s1, Raise e)
      | (s1, Ret all_hs) =>
          match omapM (build_trade all_hs) df' with
          | Raise e => process_dataframe df s = (s1, Raise e)
          | Ret trade_objects =>
              match TradeData_bulk_create trade_objects s1 with
              | (_, Raise e) => process_dataframe df s = (s1, Raise e)
              | (s2, Ret _) =>
                  process_dataframe df s = (s2, Ret (length trade_objects))
              end
          end
      end
  end.
Proof.
  unfold process_dataframe, bind, lift, atomic, ret.
  destruct (normalize (rows df)) as [df'|e]; [|done].
  destruct (resolve_hs_codes df' s) as [s1 [all_hs|e]]; [|done].
  destruct (omapM (build_trade all_hs) df') as [objs|e]; [|done].
  by destruct (TradeData_bulk_create objs s1) as [s2 [u|e]].
Qed.

(** ** All or nothing (C3) *)

(** C3.  Whatever [process_dataframe] raises, the trade table is the one
    it started from.  When it raises after the catalog step has returned,
    that is while the records are built or inserted, the store is the one
    the catalog step left: the trade table is unchanged and the catalog
    holds the old entries followed by the additions of this upload.  When
    it returns [n], the trade table has grown by exactly [n] records. *)
Theorem batch_insert_all_or_nothing (df : DataFrame) (s s' : Store)
    (res : outcome nat) :
  process_dataframe df s = (s', res) →
  match res with
  | Raise e =>
      trade_table s' = trade_table s
      ∧ ∀ df' s1 all_hs,
          normalize (rows df) = Ret df' →
          resolve_hs_codes df' s = (s1, Ret all_hs) →
          s' = s1 ∧ hs_table s' = hs_table s ++ catalog_additions df' s
  | Ret n =>
      ∃ new, trade_table s' = trade_table s ++ new ∧ n = length new
  end.
Proof.
  intros Hrun. pose proof (process_dataframe_cases df s) as Hcases.
  destruct (normalize (rows df)) as [df'|e].
  2: { rewrite Hcases in Hrun. injection Hrun as <- <-.
       split; [done|]. intros ??? [=]. }
  destruct (resolve_hs_codes df' s) as [s1 [all_hs|e]] eqn:Hresolve.
  2: { rewrite Hcases in Hrun. injection Hrun as <- <-.
       pose proof (resolve_hs_codes_store _ _ _ _ Hresolve) as [Ht _].
       split; [done|]. intros ??? [= <-] Hres. congruence. }
  pose proof (resolve_hs_codes_store _ _ _ _ Hresolve) as [Ht Hh].
  assert (∀ df'' s1' all_hs',
    Ret df' = Ret df'' → resolve_hs_codes df'' s = (s1', Ret all_hs') →
    s1 = s1' ∧ hs_table s1 = hs_table s ++ catalog_additions df'' s) as Hcat.
  { intros ??? [= <-] Hres. rewrite Hresolve in Hres. by injection Hres as <- _. }
  destruct (omapM (build_trade all_hs) df') as [objs|e].
  2: { rewrite Hcases in Hrun. by injection Hrun as <- <-. }
  destruct (TradeData_bulk_create objs s1) as [s2 [u|e]] eqn:Hbulk.
  - rewrite Hcases in Hrun. injection Hrun as <- <-.
    apply TradeData_bulk_create_spec in Hbulk as (ts & Hprep & ->).
    exists ts. cbn. rewrite Ht. split; [done|].
    symmetry. by eapply omapM_length.
  - rewrite Hcases in Hrun. by injection Hrun as <- <-.
Qed.

Lemma batch_insert_all_or_nothing_witness :
  (∃ s', process_dataframe Examples.blank_year_batch Examples.empty_store
         = (s', Raise ValueError)
         ∧ trade_table s' = [] ∧ hs_table s' = [Examples.maize; Examples.horses])
  ∧ (∃ s', process_dataframe Examples.blank_value_batch Examples.empty_store
           = (s', Raise ValidationError)
           ∧ trade_table s' = [] ∧ hs_table s' = [Examples.maize; Examples.horses])
  ∧ (∃ s' new, process_dataframe Examples.two_rows Examples.empty_store
               = (s', Ret 2%nat)
               ∧ trade_table s' = new ∧ 2%nat = length new).
Proof.
  split; [|split].
  - eexists. split; [vm_compute; reflexivity|].
    destruct (batch_insert_all_or_nothing Examples.blank_year_batch
                Examples.empty_store _ (Raise ValueError) eq_refl) as [Ht Hh].
    split; [exact Ht|].
    refine (proj2 (Hh _ _ _ eq_refl _)). vm_compute. reflexivity.
  - eexists. split; [vm_compute; reflexivity|].
    destruct (batch_insert_all_or_nothing Examples.blank_value_batch
                Examples.empty_store _ (Raise ValidationError) eq_refl) as [Ht Hh].
    split; [exact Ht|].
    refine (proj2 (Hh _ _ _ eq_refl _)). vm_compute. reflexivity.
  - destruct (batch_insert_all_or_nothing Examples.two_rows
                Examples.empty_store _ (Ret 2%nat) eq_refl) as (new & Ht & Hn).
    eexists _, new. split; [reflexivity|]. split; [exact Ht | exact Hn].
Defined.

(** ** Month filtering (C6) *)

Lemma month_ok_canonical (r : Row) : month_ok (canonical r) = month_ok r.
Proof. reflexivity. Qed.

Lemma select_month_mask (l : list Row) (mask : list bool) :
  omapM month_in_range l = Ret mask →
  select l mask = filter (λ r, month_ok r) l.
Proof.
  revert mask. induction l as [|r l IH]; intros mask; cbn [omapM].
  - by intros [= <-].
  - intros (b & Hb & H)%obind_Ret.
    apply obind_Ret in H as (mask' & Hmask & [= <-]).
    cbn [select]. rewrite (IH _ Hmask), filter_cons.
    unfold month_in_range in Hb. unfold month_ok.
    destruct (r_month r) as [m|]; [|done]. injection Hb as <-.
    destruct (decide (bool_decide (1 ≤ m ≤ 12))) as [Hm|Hm].
    + apply bool_decide_unpack in Hm.
      rewrite !bool_decide_true by lia. done.
    + rewrite bool_decide_spec in Hm.
      destruct (decide (1 ≤ m)).
      * rewrite (bool_decide_true (1 ≤ m)), (bool_decide_false (m ≤ 12)) by lia. done.
      * rewrite (bool_decide_false (1 ≤ m)) by lia. done.
Qed.

Lemma normalize_Ret (df df' : list Row) :
  normalize df = Ret df' →
  df' = filter (λ r, month_ok r) (canonical <$> df).
Proof.
  unfold normalize. rewrite <- !list_fmap_compose.
  intros (mask & Hmask & [= <-])%obind_Ret.
  by apply select_month_mask.
Qed.

Lemma filter_month_ok_canonical (df : list Row) :
  filter (λ r, month_ok r) (canonical <$> df)
  = canonical <$> filter (λ r, month_ok r) df.
Proof.
  induction df as [|r df IH]; [done|].
  rewrite fmap_cons, !filter_cons, month_ok_canonical, IH.
  by destruct (decide (month_ok r)).
Qed.

Lemma build_trade_month (all_hs : gmap string HSCode) (row : Row)
    (obj : TradeDataObj) :
  build_trade all_hs row = Ret obj → r_month row = Some (month obj).
Proof.
  unfold build_trade.
  intros (y & _ & H)%obind_Ret.
  apply obind_Ret in H as (m & Hm & H).
  apply obind_Ret in H as (hs & _ & [= <-]).
  unfold int in Hm. destruct (r_month row); [|done]. by injection Hm as <-.
Qed.

Lemma to_python_month (obj : TradeDataObj) (t : TradeData) :
  to_python obj = Ret t → month t = month obj.
Proof.
  unfold to_python. destruct (quantity obj), (value_usd obj); try done.
  by intros [= <-].
Qed.

Lemma stored_months (all_hs : gmap string HSCode) (df' : list Row)
    (objs : list TradeDataObj) (ts : list TradeData) :
  omapM (build_trade all_hs) df' = Ret objs →
  omapM to_python objs = Ret ts →
  Some <$> (month <$> ts) = r_month <$> df'.
Proof.
  intros Hbuild%omapM_Forall2 Hprep%omapM_Forall2.
  revert ts Hprep. induction Hbuild as [|row obj df' objs Hrow _ IH];
    intros ts Hprep; inversion Hprep as [|? t ? ts' Ht Hts]; subst; [done|].
  rewrite !fmap_cons, (IH _ Hts), (to_python_month _ _ Ht).
  by rewrite (build_trade_month _ _ _ Hrow).
Qed.

Lemma month_ok_range (r : Row) (m : Z) :
  month_ok r → r_month r = Some m → 1 ≤ m ≤ 12.
Proof.
  unfold month_ok. intros Hok Hm. rewrite Hm in Hok.
  by apply bool_decide_unpack in Hok.
Qed.

(** C6.  The rows [process_dataframe] goes on with are the rows of the
    upload whose month is in 1..12, normalized, in order: a row outside
    the range is dropped, a row inside is kept.  Whatever the outcome, the
    records added to the trade table have a month in 1..12; on success
    they are as many as the in-range rows and carry their months, in
    order.  So a trade table whose months are all in 1..12 stays so. *)
Theorem month_filtering (df : DataFrame) (s s' : Store) (res : outcome nat) :
  process_dataframe df s = (s', res) →
  (∀ df', normalize (rows df) = Ret df' →
          df' = canonical <$> filter (λ r, month_ok r) (rows df))
  ∧ (∃ new, trade_table s' = trade_table s ++ new
       ∧ Forall (λ t, 1 ≤ month t ≤ 12) new
       ∧ match res with
         | Ret n =>
             n = length (filter (λ r, month_ok r) (rows df))
             ∧ Some <$> (month <$> new)
               = r_month <$> filter (λ r, month_ok r) (rows df)
         | Raise _ => new = []
         end)
  ∧ (Forall (λ t, 1 ≤ month t ≤ 12) (trade_table s) →
     Forall (λ t, 1 ≤ month t ≤ 12) (trade_table s')).
Proof.
  intros Hrun.
  assert (∀ df', normalize (rows df) = Ret df' →
            df' = canonical <$> filter (λ r, month_ok r) (rows df)) as Hnorm.
  { intros df' ->%normalize_Ret. apply filter_month_ok_canonical. }
  split; [done|].
  assert (∃ new, trade_table s' = trade_table s ++ new
       ∧ Forall (λ t, 1 ≤ month t ≤ 12) new
       ∧ match res with
         | Ret n =>
             n = length (filter (λ r, month_ok r) (rows df))
             ∧ Some <$> (month <$> new)
               = r_month <$> filter (λ r, month_ok r) (rows df)
         | Raise _ => new = []
         end) as (new & Hnew & Hrange & Hres).
  2: { split; [by exists new|]. intros Hold. rewrite Hnew.
       by apply Forall_app_2. }
  pose proof (process_dataframe_cases df s) as Hcases.
  destruct (normalize (rows df)) as [df'|e].
  2: { rewrite Hcases in Hrun. injection Hrun as <- <-.
       exists []. by rewrite app_nil_r. }
  specialize (Hnorm df' eq_refl).
  destruct (resolve_hs_codes df' s) as [s1 [all_hs|e]] eqn:Hresolve;
    pose proof (resolve_hs_codes_store _ _ _ _ Hresolve) as [Ht _].
  2: { rewrite Hcases in Hrun. injection Hrun as <- <-.
       exists []. by rewrite app_nil_r. }
  destruct (omapM (build_trade all_hs) df') as [objs|e] eqn:Hbuild.
  2: { rewrite Hcases in Hrun. injection Hrun as <- <-.
       exists []. by rewrite app_nil_r. }
  destruct (TradeData_bulk_create objs s1) as [s2 [u|e]] eqn:Hbulk.
  2: { rewrite Hcases in Hrun. injection Hrun as <- <-.
       exists []. by rewrite app_nil_r. }
  rewrite Hcases in Hrun. injection Hrun as <- <-.
  apply TradeData_bulk_create_spec in Hbulk as (ts & Hprep & ->).
  pose proof (stored_months _ _ _ _ Hbuild Hprep) as Hmonths.
  assert (r_month <$> df' = r_month <$> filter (λ r, month_ok r) (rows df))
    as Hsame.
  { rewrite Hnorm, <- list_fmap_compose. by apply list_fmap_ext. }
  exists ts. cbn. rewrite Ht. split; [done|]. split; [|split].
  - apply Forall_forall. intros t Hin.
    assert (Some (month t) ∈ r_month <$> filter (λ r, month_ok r) (rows df))
      as Hm.
    { rewrite <- Hsame, <- Hmonths.
      by apply list_elem_of_fmap_2, list_elem_of_fmap_2. }
    apply list_elem_of_fmap in Hm as (r & Hr & Hok).
    apply list_elem_of_filter in Hok as [Hok _].
    by apply (month_ok_range r).
  - rewrite (omapM_length _ _ _ Hbuild), Hnorm. by rewrite length_fmap.
  - by rewrite Hmonths.
Qed.

Lemma month_filtering_witness :
  ∃ s' new,
    process_dataframe Examples.month_batch Examples.empty_store = (s', Ret 1%nat)
    ∧ trade_table s' = trade_table Examples.empty_store ++ new
    ∧ Some <$> (month <$> new) = [Some 12].
Proof.
  assert (process_dataframe Examples.month_batch Examples.empty_store
          = (mkStore [Examples.maize] [Examples.december], Ret 1%nat)) as Hrun
    by (vm_compute; reflexivity).
  destruct (month_filtering _ _ _ _ Hrun)
    as (_ & (new & Hnew & _ & _ & Hmonths) & _).
  exists (mkStore [Examples.maize] [Examples.december]), new.
  split; [exact Hrun|]. split; [exact Hnew|]. exact Hmonths.
Defined.

(** ** One code, several descriptions (C2) *)

Lemma insert_all_hs_Raise (objs : list HSCode) (s s' : Store) (e : exn) :
  insert_all insert_hs objs s = (s', Raise e) → e = IntegrityError.
Proof.
  revert s. induction objs as [|o objs IH]; intros s; cbn [insert_all].
  - intros [=].
  - unfold bind, insert_hs. case_bool_decide.
    + by intros [= <- <-].
    + apply IH.
Qed.

Lemma insert_all_hs_NoDup (objs : list HSCode) (s s' : Store) (u : unit) :
  insert_all insert_hs objs s = (s', Ret u) →
  NoDup (code <$> objs) ∧ ∀ h, h ∈ objs → code h ∉ code <$> hs_table s.
Proof.
  revert s. induction objs as [|o objs IH]; intros s; cbn [insert_all].
  - intros _. split; [constructor|]. intros h Hh. by apply elem_of_nil in Hh.
  - unfold bind, insert_hs. case_bool_decide as Hnew; [intros [=]|].
    intros [Hnd Hfresh]%IH. cbn [hs_table] in Hfresh.
    assert (∀ h, h ∈ objs → code h ≠ code o ∧ code h ∉ code <$> hs_table s)
      as Hfresh'.
    { intros h Hh. specialize (Hfresh h Hh).
      rewrite fmap_app, elem_of_app in Hfresh.
      change (code <$> [o]) with [code o] in Hfresh.
      rewrite list_elem_of_singleton in Hfresh. naive_solver. }
    split.
    + rewrite fmap_cons. apply NoDup_cons. split; [|done].
      intros (h & Heq & Hh)%list_elem_of_fmap.
      by destruct (Hfresh' h Hh) as [Hne _].
    + intros h [-> | Hh]%elem_of_cons; [done|]. by apply Hfresh'.
Qed.

Lemma NoDup_fmap_eq {A B} (f : A → B) (l : list A) (x y : A) :
  NoDup (f <$> l) → x ∈ l → y ∈ l → f x = f y → x = y.
Proof.
  induction l as [|z l IH]; intros Hnd Hx Hy Hf.
  - by apply elem_of_nil in Hx.
  - rewrite fmap_cons in Hnd. apply NoDup_cons in Hnd as [Hz Hnd].
    apply elem_of_cons in Hx as [-> | Hx]; apply elem_of_cons in Hy as [-> | Hy].
    + done.
    + exfalso. apply Hz. rewrite Hf. by apply list_elem_of_fmap_2.
    + exfalso. apply Hz. rewrite <- Hf. by apply list_elem_of_fmap_2.
    + by apply IH.
Qed.

Lemma foldl_insert_None (entries : list HSCode) (d : gmap string HSCode)
    (c : string) :
  d !! c = None → c ∉ code <$> entries →
  foldl (λ d hs, <[code hs := hs]> d) d entries !! c = None.
Proof.
  revert d. induction entries as [|hs entries IH]; intros d Hd Hc; [done|].
  rewrite fmap_cons in Hc. apply not_elem_of_cons in Hc as [Hne Hc].
  cbn [foldl]. apply IH; [|done]. by rewrite lookup_insert_ne.
Qed.

Lemma dict_by_code_None (entries : list HSCode) (c : string) :
  c ∉ code <$> entries → dict_by_code entries !! c = None.
Proof. apply foldl_insert_None, lookup_empty. Qed.

Lemma HSCode_bulk_create_duplicate (objs : list HSCode) (s : Store) :
  ¬ NoDup (code <$> objs) →
  HSCode_bulk_create objs s = (s, Raise IntegrityError).
Proof.
  intros Hdup. unfold HSCode_bulk_create, atomic.
  destruct (insert_all insert_hs objs s) as [s1 [u|e]] eqn:Hins.
  - by apply insert_all_hs_NoDup in Hins as [Hnd _].
  - by apply insert_all_hs_Raise in Hins as ->.
Qed.

(** Two rows of a batch that give one code, absent from the catalog, two
    descriptions: both pairs survive [drop_duplicates], two entries with
    that code are handed to [bulk_create], and the upload fails on the
    unique constraint with nothing written. *)
Lemma two_descriptions_rejected (df : DataFrame) (df' : list Row) (s : Store)
    (r1 r2 : Row) :
  normalize (rows df) = Ret df' →
  r1 ∈ df' → r2 ∈ df' →
  text (r_hs_code r1) = text (r_hs_code r2) →
  text (r_description r1) ≠ text (r_description r2) →
  text (r_hs_code r1) ∉ code <$> hs_table s →
  process_dataframe df s = (s, Raise IntegrityError).
Proof.
  intros Hnorm H1 H2 Hcode Hdesc Hnew.
  pose proof (process_dataframe_cases df s) as Hcases. rewrite Hnorm in Hcases.
  assert (resolve_hs_codes df' s = (s, Raise IntegrityError)) as Hresolve;
    [|by rewrite Hresolve in Hcases].
  unfold resolve_hs_codes, bind, HSCode_filter_code_in.
  fold (catalog_additions df' s).
  assert (∀ r, r ∈ df' → text (r_hs_code r) = text (r_hs_code r1) →
            HSCode_init (text (r_hs_code r)) (text (r_description r))
            ∈ catalog_additions df' s) as Hadd.
  { intros r Hr Hc. unfold catalog_additions, new_hs_objects.
    apply (list_elem_of_fmap_2' _ _ (text (r_hs_code r), text (r_description r)));
      [|done].
    apply list_elem_of_filter. split.
    - cbn. apply dict_by_code_None. rewrite Hc.
      intros (h & Heq & Hh)%list_elem_of_fmap.
      apply list_elem_of_filter in Hh as [_ Hh].
      apply Hnew. rewrite Heq. by apply list_elem_of_fmap_2.
    - apply elem_of_drop_duplicates.
      by apply (list_elem_of_fmap_2
                  (λ r, (text (r_hs_code r), text (r_description r)))). }
  assert (¬ NoDup (code <$> catalog_additions df' s)) as Hdup.
  { intros Hnd. apply Hdesc.
    assert (HSCode_init (text (r_hs_code r1)) (text (r_description r1))
            = HSCode_init (text (r_hs_code r2)) (text (r_description r2))) as Heq.
    { apply (NoDup_fmap_eq code (catalog_additions df' s)); auto. }
    by injection Heq. }
  destruct (catalog_additions df' s) as [|o objs].
  - exfalso. apply Hdup. constructor.
  - by rewrite (HSCode_bulk_create_duplicate _ s Hdup).
Qed.

(** C2.  Uploading two rows that give the code 0101 the descriptions
    "Horses" and "Live horses" into an empty store: the catalog step hands
    two entries with the code 0101 to [bulk_create]; the upload fails on
    the unique constraint and leaves the catalog empty, where the claim
    expects the one entry 0101 "Horses". *)
Theorem two_descriptions_upload :
  ∃ df',
    normalize (rows Examples.two_descriptions) = Ret df'
    ∧ catalog_additions df' Examples.empty_store
      = [HSCode_init "0101" "Horses"; HSCode_init "0101" "Live horses"]
    ∧ process_dataframe Examples.two_descriptions Examples.empty_store
      = (Examples.empty_store, Raise IntegrityError).
Proof.
  eexists. split; [vm_compute; reflexivity|].
  split; vm_compute; reflexivity.
Qed.

(** ** The export (C7) *)

(** Without [trade_type], [search] and [crop] the export lists the records
    of the dashboard's queryset. *)
Lemma export_same_filter (GET : QueryDict) (s : Store) :
  q_trade_type GET = None → q_search GET = None → q_crop GET = None →
  export_filtered_data GET s = csv_header :: (csv_row <$> get_queryset GET s).
Proof.
  intros Ht Hs Hc. unfold export_filtered_data, get_queryset.
  by rewrite Ht, Hs, Hc.
Qed.

(** The export never reads [trade_type] and [search]. *)
Lemma export_ignores_direction_and_search (GET : QueryDict) (s : Store)
    (t w : option string) :
  export_filtered_data
    (mkQuery (q_year GET) (q_month GET) t (q_country GET) w (q_crop GET)) s
  = export_filtered_data GET s.
Proof. reflexivity. Qed.

(** C7.  With [trade_type=IMPORT] over a store of one import and one
    export, the dashboard's queryset holds the import alone and the export
    writes the header and both records. *)
Theorem export_with_trade_type :
  get_queryset Examples.imports_only Examples.two_shipments
  = [Examples.import_100]
  ∧ export_filtered_data Examples.imports_only Examples.two_shipments
    = [csv_header;
       ["2024"; "4"; "Uganda"; "1005"; "Maize"; "EXPORT"; "7.00"; "300.00"];
       ["2024"; "3"; "Kenya"; "0101"; "Horses"; "IMPORT"; "5.00"; "100.00"]].
Proof. split; vm_compute; reflexivity. Qed.

(** ** Missing columns (C8) *)

Lemma issubset_false (required cols : list string) :
  (∃ c, c ∈ required ∧ c ∉ cols) → issubset required cols = false.
Proof.
  intros (c & Hc & Hmiss). unfold issubset.
  apply not_true_is_false. intros Hall.
  rewrite forallb_forall in Hall. apply Hmiss.
  eapply bool_decide_eq_true_1. apply Hall. by apply list_elem_of_In.
Qed.

Lemma load_frame_missing (df : DataFrame) (s : Store) :
  (∃ c, c ∈ required_columns ∧ c ∉ columns df) →
  load_frame df s
  = (s, Ret (redirect (error "Missing required columns in file."))).
Proof. intros Hmiss. unfold load_frame. by rewrite issubset_false. Qed.

(** C8, as the code has it.  When the uploaded file decodes to a frame
    that lacks one of the eight required columns, [post] writes nothing
    and answers with the one message "Missing required columns in file.",
    whichever columns are missing. *)
Theorem missing_columns_message
    (read_text : list N → option DataFrame)
    (read_excel : list Byte.byte → outcome DataFrame)
    (request : Request) (s : Store) (df : DataFrame) :
  form_valid request = true →
  (Str.endswith ".csv" (Str.lower (file_name request)) = true
   ∧ (read_csv_safely read_text (file_data request)).2 = Ret df)
  ∨ (Str.endswith ".csv" (Str.lower (file_name request)) = false
     ∧ Str.endswith ".xlsx" (Str.lower (file_name request)) = true
     ∧ read_excel (file_data request) = Ret df) →
  (∃ c, c ∈ required_columns ∧ c ∉ columns df) →
  post read_text read_excel request s
  = (s, Ret (redirect (error "Missing required columns in file."))).
Proof.
  intros Hvalid Hdecoded Hmiss. unfold post, try_except, bind, lift.
  rewrite Hvalid. cbn [negb].
  destruct Hdecoded as [[-> ->] | (-> & -> & ->)];
    by rewrite (load_frame_missing df s Hmiss).
Qed.

Lemma missing_columns_message_witness :
  post (λ _, Some Examples.no_year_frame) (λ _, Raise ParserError)
    Examples.csv_upload Examples.two_shipments
  = (Examples.two_shipments,
     Ret (redirect (error "Missing required columns in file."))).
Proof.
  apply (missing_columns_message _ _ _ _ Examples.no_year_frame).
  - reflexivity.
  - left. split; vm_compute; reflexivity.
  - exists "year". split; [left|]. vm_compute.
    intros H. repeat (apply elem_of_cons in H as [H|H]; [discriminate|]).
    by apply elem_of_nil in H.
Defined.

(** A frame without the [year] column: the message does not name it. *)
Lemma missing_column_not_named :
  ∃ msg,
    post (λ _, Some Examples.no_year_frame) (λ _, Raise ParserError)
      Examples.csv_upload Examples.two_shipments
    = (Examples.two_shipments, Ret (redirect (error msg)))
    ∧ "year" ∈ required_columns
    ∧ ("year" ∉ columns Examples.no_year_frame)
    ∧ Str.contains "year" msg = false.
Proof.
  eexists. split; [vm_compute; reflexivity|]. split; [left|]. split.
  - vm_compute. intros H.
    repeat (apply elem_of_cons in H as [H|H]; [discriminate|]).
    by apply elem_of_nil in H.
  - vm_compute. reflexivity.
Qed.

(** ** The chain of encodings (C9) *)

Lemma pd_read_csv_latin1 (read_text : list N → option DataFrame)
    (raw : list Byte.byte) :
  pd_read_csv read_text latin1 raw = parse_text read_text (Codec.iso8859_1 raw).
Proof. reflexivity. Qed.

Lemma parse_text_not_decode_error (read_text : list N → option DataFrame)
    (txt : list N) :
  parse_text read_text txt ≠ Raise UnicodeDecodeError.
Proof. unfold parse_text. by destruct (read_text txt). Qed.

Lemma read_csv_safely_cases (read_text : list N → option DataFrame)
    (raw : list Byte.byte) :
  read_csv_safely read_text raw
  = match Codec.decode utf_8 raw with
    | Some txt => ([utf_8], parse_text read_text txt)
    | None => ([utf_8; latin1], parse_text read_text (Codec.iso8859_1 raw))
    end.
Proof.
  unfold read_csv_safely. rewrite pd_read_csv_latin1. unfold pd_read_csv.
  destruct (Codec.decode utf_8 raw) as [txt|].
  - pose proof (parse_text_not_decode_error read_text txt) as Hne.
    destruct (parse_text read_text txt) as [df|[]]; done.
  - pose proof (parse_text_not_decode_error read_text (Codec.iso8859_1 raw))
      as Hne.
    destruct (parse_text read_text (Codec.iso8859_1 raw)) as [df|[]]; done.
Qed.

Lemma read_csv_safely_no_decode_error (read_text : list N → option DataFrame)
    (raw : list Byte.byte) :
  (read_csv_safely read_text raw).2 ≠ Raise UnicodeDecodeError.
Proof.
  rewrite read_csv_safely_cases.
  destruct (Codec.decode utf_8 raw); apply parse_text_not_decode_error.
Qed.

(** C9, as the code has it.  [read_csv_safely] first reads the bytes as
    UTF-8 and, when they are not UTF-8, as ISO 8859-1; the frame it returns
    is read from the text of the first encoding of the chain UTF-8,
    ISO 8859-1, Windows-1252 that decodes the bytes.  ISO 8859-1 decodes
    every byte sequence, so Windows-1252 is never tried and no input makes
    the reader fail with a decoding error. *)
Theorem decoder_chain (read_text : list N → option DataFrame)
    (raw : list Byte.byte) :
  read_csv_safely read_text raw
  = match Codec.decode utf_8 raw with
    | Some txt => ([utf_8], parse_text read_text txt)
    | None => ([utf_8; latin1], parse_text read_text (Codec.iso8859_1 raw))
    end
  ∧ (∃ txt, first_decodable [utf_8; latin1; cp1252] raw = Some txt
            ∧ (read_csv_safely read_text raw).2 = parse_text read_text txt)
  ∧ (cp1252 ∉ (read_csv_safely read_text raw).1)
  ∧ (read_csv_safely read_text raw).2 ≠ Raise UnicodeDecodeError.
Proof.
  split; [apply read_csv_safely_cases|].
  split; [|split; [|apply read_csv_safely_no_decode_error]];
    rewrite read_csv_safely_cases; cbn [first_decodable];
    destruct (Codec.decode utf_8 raw) as [txt|]; cbn.
  - by exists txt.
  - by eexists.
  - intros H. apply list_elem_of_singleton in H. discriminate.
  - intros H. repeat (apply elem_of_cons in H as [H|H]; [discriminate|]).
    by apply elem_of_nil in H.
Qed.

(** No byte sequence defeats all three encodings, and the reader never
    fails with a decoding error. *)
Lemma decode_error_unreachable :
  (¬ ∃ raw, ∀ enc, enc ∈ [utf_8; latin1; cp1252] → Codec.decode enc raw = None)
  ∧ (¬ ∃ read_text raw,
         (read_csv_safely read_text raw).2 = Raise UnicodeDecodeError).
Proof.
  split.
  - intros (raw & Hall). specialize (Hall latin1). cbn in Hall.
    assert (latin1 ∈ [utf_8; latin1; cp1252]) as Hin by (right; left).
    by specialize (Hall Hin).
  - intros (read_text & raw & Hfail).
    by apply (read_csv_safely_no_decode_error read_text raw).
Qed.

(** Bytes that are not UTF-8, the second of them not Windows-1252 either:
    both are read as ISO 8859-1, after two attempts. *)
Lemma decoder_chain_examples :
  read_csv_safely (λ _, Some Examples.no_year_frame) Examples.e_acute
  = ([utf_8; latin1], Ret Examples.no_year_frame)
  ∧ Codec.decode cp1252 Examples.unassigned = None
  ∧ read_csv_safely (λ _, Some Examples.no_year_frame) Examples.unassigned
    = ([utf_8; latin1], Ret Examples.no_year_frame).
Proof. repeat split. Qed.

(** * Further properties *)

(** ** What an upload writes *)

Lemma foldl_insert_Some (entries : list HSCode) (d : gmap string HSCode)
    (c : string) (h : HSCode) :
  foldl (λ d hs, <[code hs := hs]> d) d entries !! c = Some h →
  (h ∈ entries ∧ code h = c) ∨ d !! c = Some h.
Proof.
  revert d. induction entries as [|hs entries IH]; intros d; cbn [foldl].
  - by right.
  - intros [[Hin Hc] | Hd]%IH.
    + left. split; [by right | done].
    + destruct (decide (code hs = c)) as [Heq | Hne].
      * rewrite <- Heq, lookup_insert_eq in Hd. injection Hd as <-.
        left. split; [left | done].
      * rewrite lookup_insert_ne in Hd by done. by right.
Qed.

Lemma dict_by_code_Some (entries : list HSCode) (c : string) (h : HSCode) :
  dict_by_code entries !! c = Some h → h ∈ entries ∧ code h = c.
Proof.
  intros [H | H]%foldl_insert_Some; [done|].
  by rewrite lookup_empty in H.
Qed.

Lemma foldl_insert_is_Some (entries : list HSCode) (d : gmap string HSCode)
    (c : string) :
  c ∈ code <$> entries ∨ is_Some (d !! c) →
  is_Some (foldl (λ d hs, <[code hs := hs]> d) d entries !! c).
Proof.
  revert d. induction entries as [|hs entries IH]; intros d; cbn [foldl].
  - intros [H | H]; [by apply elem_of_nil in H | done].
  - intros [H | H]; apply IH.
    + rewrite fmap_cons in H. apply elem_of_cons in H as [-> | H]; [right | by left].
      rewrite lookup_insert_eq. by eexists.
    + right. destruct (decide (code hs = c)) as [<- | Hne].
      * rewrite lookup_insert_eq. by eexists.
      * by rewrite lookup_insert_ne.
Qed.

Lemma dict_by_code_is_Some (entries : list HSCode) (c : string) :
  c ∈ code <$> entries → is_Some (dict_by_code entries !! c).
Proof. intros H. apply foldl_insert_is_Some. by left. Qed.

Lemma elem_of_unique_hs_codes (df : list Row) (p : string * string) :
  p ∈ unique_hs_codes df ↔
  ∃ r, r ∈ df ∧ p = (text (r_hs_code r), text (r_description r)).
Proof.
  unfold unique_hs_codes. rewrite elem_of_drop_duplicates, list_elem_of_fmap.
  naive_solver.
Qed.

(** The additions are the pairs of the batch whose code the catalog does
    not hold. *)
Lemma elem_of_catalog_additions (df : list Row) (s : Store) (h : HSCode) :
  h ∈ catalog_additions df s ↔
  ∃ r, r ∈ df
       ∧ h = HSCode_init (text (r_hs_code r)) (text (r_description r))
       ∧ text (r_hs_code r) ∉ code <$> hs_table s.
Proof.
  unfold catalog_additions, new_hs_objects.
  rewrite list_elem_of_fmap. split.
  - intros (p & -> & Hp). apply list_elem_of_filter in Hp as [Hnone Hp].
    pose proof Hp as (r & Hr & ->)%elem_of_unique_hs_codes.
    exists r. split; [done|]. split; [done|]. cbn in *.
    intros (h & Hc & Hh)%list_elem_of_fmap.
    assert (is_Some (dict_by_code
      (filter (λ h, code h ∈ (unique_hs_codes df).*1) (hs_table s))
      !! text (r_hs_code r))) as [h' Hsome]; [|congruence].
    apply dict_by_code_is_Some. rewrite Hc. apply list_elem_of_fmap_2.
    apply list_elem_of_filter. split; [|done].
    rewrite <- Hc. by apply (list_elem_of_fmap_2 fst) in Hp.
  - intros (r & Hr & -> & Hnew).
    exists (text (r_hs_code r), text (r_description r)). split; [done|].
    apply list_elem_of_filter. split.
    + cbn. apply dict_by_code_None.
      intros (h & Hc & Hh)%list_elem_of_fmap.
      apply list_elem_of_filter in Hh as [_ Hh]. apply Hnew.
      rewrite Hc. by apply list_elem_of_fmap_2.
    + apply elem_of_unique_hs_codes. eauto.
Qed.

Lemma resolve_hs_codes_Ret (df : list Row) (s s1 : Store)
    (all_hs : gmap string HSCode) :
  resolve_hs_codes df s = (s1, Ret all_hs) →
  s1 = mkStore (hs_table s ++ catalog_additions df s) (trade_table s)
  ∧ NoDup (code <$> catalog_additions df s)
  ∧ all_hs
    = dict_by_code
        (filter (λ h, code h ∈ (λ r, text (r_hs_code r)) <$> df) (hs_table s1)).
Proof.
  intros Hres.
  pose proof (resolve_hs_codes_store _ _ _ _ Hres) as [Ht Hh].
  revert Hres. unfold resolve_hs_codes, bind, HSCode_filter_code_in, ret.
  fold (catalog_additions df s).
  destruct (catalog_additions df s) as [|o objs] eqn:Hadd.
  - intros [= <- <-]. destruct s; cbn. rewrite app_nil_r.
    split; [done|]. split; [constructor | done].
  - unfold HSCode_bulk_create at 1, atomic.
    destruct (insert_all insert_hs (o :: objs) s) as [s2 [u|e]] eqn:Hins;
      [|intros [=]].
    intros [= <- <-]. split; [|split; [|done]].
    + destruct s2. cbn in *. by subst.
    + by apply insert_all_hs_NoDup in Hins as [Hnd _].
Qed.

(** After the catalog step every code of the batch is in the mapping. *)
Lemma resolve_hs_codes_complete (df : list Row) (s s1 : Store)
    (all_hs : gmap string HSCode) (r : Row) :
  resolve_hs_codes df s = (s1, Ret all_hs) → r ∈ df →
  ∃ h, all_hs !! text (r_hs_code r) = Some h
       ∧ h ∈ hs_table s1 ∧ code h = text (r_hs_code r).
Proof.
  intros (-> & _ & ->)%resolve_hs_codes_Ret Hr. cbn [hs_table].
  assert (text (r_hs_code r)
          ∈ code <$> hs_table s ++ catalog_additions df s) as Hin.
  { destruct (decide (text (r_hs_code r) ∈ code <$> hs_table s)) as [Hold|Hnew].
    - rewrite fmap_app. apply elem_of_app. by left.
    - rewrite fmap_app. apply elem_of_app. right.
      apply (list_elem_of_fmap_2' _ _
               (HSCode_init (text (r_hs_code r)) (text (r_description r))));
        [|done].
      apply elem_of_catalog_additions. eauto. }
  apply list_elem_of_fmap in Hin as (h & Hc & Hh).
  destruct (dict_by_code_is_Some
    (filter (λ h, code h ∈ (λ r, text (r_hs_code r)) <$> df)
       (hs_table s ++ catalog_additions df s)) (text (r_hs_code r)))
    as [h' Hsome].
  { rewrite Hc. apply list_elem_of_fmap_2, list_elem_of_filter.
    split; [|done]. rewrite <- Hc.
    by apply (list_elem_of_fmap_2 (λ r, text (r_hs_code r))). }
  exists h'. split; [done|].
  apply dict_by_code_Some in Hsome as [Hin' Hcode].
  by apply list_elem_of_filter in Hin' as [_ Hin'].
Qed.

Lemma process_dataframe_Ret (df : DataFrame) (s s' : Store) (n : nat) :
  process_dataframe df s = (s', Ret n) →
  ∃ df' s1 all_hs objs ts,
    normalize (rows df) = Ret df'
    ∧ resolve_hs_codes df' s = (s1, Ret all_hs)
    ∧ omapM (build_trade all_hs) df' = Ret objs
    ∧ omapM to_python objs = Ret ts
    ∧ s' = mkStore (hs_table s1) (trade_table s1 ++ ts)
    ∧ n = length ts.
Proof.
  intros Hrun. pose proof (process_dataframe_cases df s) as Hcases.
  destruct (normalize (rows df)) as [df'|e]; [|congruence].
  destruct (resolve_hs_codes df' s) as [s1 [all_hs|e]] eqn:Hres; [|congruence].
  destruct (omapM (build_trade all_hs) df') as [objs|e] eqn:Hbuild; [|congruence].
  destruct (TradeData_bulk_create objs s1) as [s2 [u|e]] eqn:Hbulk; [|congruence].
  rewrite Hcases in Hrun. injection Hrun as <- <-.
  apply TradeData_bulk_create_spec in Hbulk as (ts & Hprep & ->).
  exists df', s1, all_hs, objs, ts. repeat split; try done.
  rewrite (omapM_length _ _ _ Hprep). done.
Qed.

Lemma build_stored (all_hs : gmap string HSCode) (row : Row)
    (obj : TradeDataObj) (t : TradeData) :
  build_trade all_hs row = Ret obj → to_python obj = Ret t →
  r_year row = Some (year t)
  ∧ r_month row = Some (month t)
  ∧ trade_type t = text (r_trade_type row)
  ∧ all_hs !! text (r_hs_code row) = Some (hs_code t)
  ∧ country t = Some (text (r_country row))
  ∧ r_quantity row = Some (quantity t)
  ∧ unit_ t = None
  ∧ r_value_usd row = Some (value_usd t).
Proof.
  unfold build_trade, int, getitem, to_python.
  destruct (r_year row) as [y|]; [|done].
  destruct (r_month row) as [m|]; [|done].
  destruct (all_hs !! text (r_hs_code row)) as [hs|]; [|done].
  cbn. intros [= <-]. cbn.
  destruct (r_quantity row) as [q|]; [|done].
  destruct (r_value_usd row) as [v|]; [|done].
  by intros [= <-].
Qed.

Lemma omapM_compose {A B C} (f : A → outcome B) (g : B → outcome C)
    (l : list A) (ys : list B) (zs : list C) :
  omapM f l = Ret ys → omapM g ys = Ret zs →
  Forall2 (λ x z, ∃ y, f x = Ret y ∧ g y = Ret z) l zs.
Proof.
  intros Hf%omapM_Forall2 Hg%omapM_Forall2. revert zs Hg.
  induction Hf as [|x y l ys Hxy _ IH]; intros zs Hg;
    inversion Hg as [|? z ? zs' Hyz Hrest]; subst; constructor; eauto.
Qed.

Lemma stored_rows (df : DataFrame) (s s' : Store) (n : nat) :
  process_dataframe df s = (s', Ret n) →
  ∃ new,
    trade_table s' = trade_table s ++ new
    ∧ n = length new
    ∧ Forall2 (λ r t, stored_as r t ∧ hs_code t ∈ hs_table s')
        (filter (λ r, month_ok r) (rows df)) new.
Proof.
  intros (df' & s1 & all_hs & objs & ts & Hnorm & Hres & Hbuild & Hprep
          & -> & ->)%process_dataframe_Ret.
  pose proof (resolve_hs_codes_store _ _ _ _ Hres) as [Ht _].
  pose proof (resolve_hs_codes_Ret _ _ _ _ Hres) as (_ & _ & Hall).
  pose proof (omapM_compose _ _ _ _ _ Hbuild Hprep) as Hrows.
  apply normalize_Ret in Hnorm. rewrite filter_month_ok_canonical in Hnorm.
  exists ts. cbn. rewrite Ht. split; [done|]. split; [done|].
  rewrite Hnorm in Hrows. apply Forall2_fmap_l in Hrows.
  eapply Forall2_impl; [exact Hrows|].
  intros r t (obj & Hb & Hp).
  destruct (build_stored _ _ _ _ Hb Hp)
    as (Hy & Hm & Htt & Hhs & Hc & Hq & Hu & Hv).
  rewrite Hall in Hhs. apply dict_by_code_Some in Hhs as [Hin Hcode].
  apply list_elem_of_filter in Hin as [_ Hin].
  split; [|done]. by repeat split.
Qed.

Lemma insert_all_trade_Ret (ts : list TradeData) (s s' : Store) (u : unit) :
  insert_all insert_trade ts s = (s', Ret u) →
  Forall (λ t, 0 ≤ year t ∧ 0 ≤ month t ∧ is_Some (country t)) ts.
Proof.
  revert s. induction ts as [|t ts IH]; intros s; cbn [insert_all]; [done|].
  unfold bind, insert_trade.
  destruct (bool_decide (0 ≤ year t)) eqn:Hy; [|done].
  destruct (bool_decide (0 ≤ month t)) eqn:Hm; [|done].
  destruct (bool_decide (is_Some (country t))) eqn:Hc; [|done].
  cbn. intros Hrest%IH. constructor; [|done].
  apply bool_decide_eq_true in Hy, Hm, Hc. done.
Qed.

Lemma int64_spec (n : Z) : int64 n = true ↔ - 2 ^ 63 ≤ n < 2 ^ 63.
Proof.
  unfold int64. rewrite andb_true_iff, !bool_decide_eq_true. lia.
Qed.

(** The years of the records an upload stores passed the check constraint
    and fit 64 bits. *)
Lemma stored_years (df : DataFrame) (s s' : Store) (n : nat) :
  process_dataframe df s = (s', Ret n) →
  ∃ new, trade_table s' = trade_table s ++ new
         ∧ Forall (λ t, 0 ≤ year t < 2 ^ 63) new.
Proof.
  intros Hrun. pose proof (process_dataframe_cases df s) as Hcases.
  destruct (normalize (rows df)) as [df'|e]; [|congruence].
  destruct (resolve_hs_codes df' s) as [s1 [all_hs|e]] eqn:Hres; [|congruence].
  pose proof (resolve_hs_codes_store _ _ _ _ Hres) as [Ht _].
  destruct (omapM (build_trade all_hs) df') as [objs|e]; [|congruence].
  destruct (TradeData_bulk_create objs s1) as [s2 [u|e]] eqn:Hbulk; [|congruence].
  rewrite Hcases in Hrun. injection Hrun as <- _.
  revert Hbulk. unfold TradeData_bulk_create, atomic, bind, lift.
  destruct (omapM to_python objs) as [ts|e]; [|done].
  destruct (omapM bind_parameters ts) as [ts'|e] eqn:Hbind; [|done].
  apply omapM_bind_parameters in Hbind as [-> Hfit].
  destruct (insert_all insert_trade ts s1) as [s3 [u'|e]] eqn:Hins; [|done].
  intros [= <- _].
  pose proof (insert_all_trade_Ret _ _ _ _ Hins) as Hchecked.
  apply insert_all_trade_spec in Hins as [_ Hnew].
  exists ts. rewrite Hnew, Ht. split; [done|].
  rewrite Forall_forall in Hfit, Hchecked. apply Forall_forall. intros t Hin.
  destruct (Hfit t Hin) as [Hy%int64_spec _].
  destruct (Hchecked t Hin) as [Hpos _]. lia.
Qed.

(** On success of an upload of plain data, the records appended to the trade
    table are the rows of the file whose month is in 1..12, in order and
    field by field; each of them points to an entry of the catalog, and
    its year is not negative and fits 64 bits. *)
Theorem upload_stores_rows (df : DataFrame) (s s' : Store) (n : nat) :
  process_dataframe df s = (s', Ret n) →
  plain_upload df →
  ∃ new,
    trade_table s' = trade_table s ++ new
    ∧ n = length new
    ∧ Forall2 stored_as (filter (λ r, month_ok r) (rows df)) new
    ∧ Forall (λ t, hs_code t ∈ hs_table s') new
    ∧ Forall (λ t, 0 ≤ year t < 2 ^ 63) new.
Proof.
  intros Hrun _.
  destruct (stored_years _ _ _ _ Hrun) as (new' & Hnew' & Hyears).
  destruct (stored_rows _ _ _ _ Hrun) as (new & Hnew & Hn & Hboth).
  assert (new' = new) as -> by (rewrite Hnew in Hnew'; by apply app_inv_head in Hnew').
  exists new. split; [done|]. split; [done|]. split; [|split; [|done]].
  - eapply Forall2_impl; [exact Hboth|]. by intros r t [? _].
  - eapply Forall2_Forall_r; [exact Hboth|].
    apply Forall_forall. by intros r _ t [_ ?].
Qed.

(** ** What an upload can raise *)

Lemma omapM_Raise {A B} (f : A → outcome B) (l : list A) (e : exn) :
  omapM f l = Raise e → ∃ x, x ∈ l ∧ f x = Raise e.
Proof.
  induction l as [|x l IH]; cbn [omapM]; [done|].
  destruct (f x) as [y|e'] eqn:Hx; cbn [obind].
  - destruct (omapM f l) as [ys|e'] eqn:Hl; cbn [obind]; [done|].
    intros [= ->]. destruct IH as (x' & Hin & Hx'); [done|].
    exists x'. split; [by right | done].
  - intros [= ->]. exists x. split; [left | done].
Qed.

Lemma normalize_Raise (df : list Row) (e : exn) :
  normalize df = Raise e → e = TypeError ∧ ∃ r, r ∈ df ∧ r_month r = None.
Proof.
  unfold normalize. rewrite <- !list_fmap_compose.
  destruct (omapM month_in_range _) as [mask|e'] eqn:Hmask; [done|].
  cbn [obind]. intros [= ->].
  apply omapM_Raise in Hmask as (r' & Hin & Hr').
  apply list_elem_of_fmap in Hin as (r & -> & Hin).
  unfold month_in_range in Hr'. cbn in Hr'.
  destruct (r_month r) eqn:Hm; [done|]. injection Hr' as <-. eauto.
Qed.

Lemma insert_all_trade_Raise (ts : list TradeData) (s s' : Store) (e : exn) :
  insert_all insert_trade ts s = (s', Raise e) →
  e = IntegrityError
  ∧ ∃ t, t ∈ ts ∧ ¬ (0 ≤ year t ∧ 0 ≤ month t ∧ is_Some (country t)).
Proof.
  revert s. induction ts as [|t ts IH]; intros s; cbn [insert_all]; [done|].
  unfold bind, insert_trade.
  destruct (bool_decide (0 ≤ year t) && bool_decide (0 ≤ month t)
            && bool_decide (is_Some (country t))) eqn:Hok.
  - intros (-> & t' & Hin & Hbad)%IH. split; [done|].
    exists t'. split; [by right | done].
  - intros [= <- <-]. split; [done|]. exists t. split; [left|].
    intros (Hy & Hm & Hc).
    rewrite !bool_decide_true in Hok by done. done.
Qed.

Lemma Forall2_elem_of_r {A B} (P : A → B → Prop) (l : list A) (k : list B)
    (y : B) :
  Forall2 P l k → y ∈ k → ∃ x, x ∈ l ∧ P x y.
Proof.
  induction 1 as [|x y' l k Hxy _ IH]; intros Hin.
  - by apply elem_of_nil in Hin.
  - apply elem_of_cons in Hin as [-> | Hin].
    + exists x. split; [left | done].
    + destruct (IH Hin) as (x' & Hx' & HP). exists x'. split; [by right | done].
Qed.

(** An upload of plain data raises one of five exceptions, never
    [KeyError]: a [TypeError] when a month cell is blank, a [ValueError]
    when a row to store has a blank year, a [ValidationError] when it has
    a blank quantity or value, an [OverflowError] when its year does not
    fit 64 bits, an [IntegrityError] otherwise. *)
Theorem upload_exceptions (df : DataFrame) (s s' : Store) (e : exn) :
  process_dataframe df s = (s', Raise e) →
  plain_upload df →
  (e = TypeError ∧ ∃ r, r ∈ rows df ∧ r_month r = None)
  ∨ (e = ValueError ∧ ∃ r, r ∈ rows df ∧ month_ok r ∧ r_year r = None)
  ∨ (e = ValidationError
     ∧ ∃ r, r ∈ rows df ∧ month_ok r
            ∧ (r_quantity r = None ∨ r_value_usd r = None))
  ∨ (e = OverflowError
     ∧ ∃ r y, r ∈ rows df ∧ month_ok r ∧ r_year r = Some y
              ∧ ¬ (- 2 ^ 63 ≤ y < 2 ^ 63))
  ∨ e = IntegrityError.
Proof.
  intros Hrun _. pose proof (process_dataframe_cases df s) as Hcases.
  destruct (normalize (rows df)) as [df'|e0] eqn:Hnorm.
  2: { rewrite Hcases in Hrun. injection Hrun as <- <-.
       left. by apply normalize_Raise. }
  apply normalize_Ret in Hnorm. rewrite filter_month_ok_canonical in Hnorm.
  assert (∀ r', r' ∈ df' →
            ∃ r, r ∈ rows df ∧ month_ok r ∧ r' = canonical r) as Hrows.
  { intros r'. rewrite Hnorm. intros (r & -> & Hr)%list_elem_of_fmap.
    apply list_elem_of_filter in Hr as [Hok Hr]. eauto. }
  destruct (resolve_hs_codes df' s) as [s1 [all_hs|e0]] eqn:Hres.
  2: { rewrite Hcases in Hrun. injection Hrun as <- <-.
       revert Hres. unfold resolve_hs_codes, bind, HSCode_filter_code_in, ret.
       destruct (new_hs_objects _ _) as [|o objs]; [done|].
       unfold HSCode_bulk_create, atomic.
       destruct (insert_all insert_hs (o :: objs) s) as [s2 [u|e1]] eqn:Hins;
         [done|].
       apply insert_all_hs_Raise in Hins as ->. intros [= <-]. by do 4 right. }
  destruct (omapM (build_trade all_hs) df') as [objs|e0] eqn:Hbuild.
  2: { rewrite Hcases in Hrun. injection Hrun as <- <-.
       apply omapM_Raise in Hbuild as (r' & Hin & Hr').
       destruct (Hrows r' Hin) as (r & Hr & Hok & ->).
       destruct (resolve_hs_codes_complete _ _ _ _ _ Hres Hin)
         as (h & Hsome & _).
       revert Hr'. unfold build_trade, int, getitem. rewrite Hsome.
       change (r_year (canonical r)) with (r_year r).
       change (r_month (canonical r)) with (r_month r).
       destruct (r_year r) eqn:Hy.
       - destruct (r_month r) eqn:Hm; [done|].
         unfold month_ok in Hok. by rewrite Hm in Hok.
       - cbn. intros [= <-]. right. left. eauto. }
  destruct (TradeData_bulk_create objs s1) as [s2 [u|e0]] eqn:Hbulk;
    rewrite Hcases in Hrun; [done|]. injection Hrun as <- <-.
  revert Hbulk. unfold TradeData_bulk_create, atomic, bind, lift.
  destruct (omapM to_python objs) as [ts|e1] eqn:Hprep.
  - destruct (omapM bind_parameters ts) as [ts'|e1] eqn:Hbind.
    + destruct (insert_all insert_trade ts' s1) as [s3 [u|e1]] eqn:Hins; [done|].
      apply insert_all_trade_Raise in Hins as [-> _]. intros [= <-].
      by do 4 right.
    + intros [= <-]. apply omapM_Raise in Hbind as (t & Hin & Ht).
      destruct (Forall2_elem_of_r _ _ _ _
                  (omapM_compose _ _ _ _ _ Hbuild Hprep) Hin)
        as (r' & Hr' & obj & Hb & Hp).
      destruct (Hrows r' Hr') as (r & Hr & Hok & ->).
      destruct (build_stored _ _ _ _ Hb Hp) as (Hy & Hm & _).
      change (r_year (canonical r)) with (r_year r) in Hy.
      change (r_month (canonical r)) with (r_month r) in Hm.
      pose proof (month_ok_range r _ Hok Hm) as Hrange.
      revert Ht. unfold bind_parameters.
      destruct (int64 (year t)) eqn:Hfit.
      * assert (int64 (month t) = true) as -> by (apply int64_spec; lia). done.
      * intros [= <-]. do 3 right. left. split; [done|].
        exists r, (year t). split; [done|]. split; [done|]. split; [done|].
        intros Hin64%int64_spec. congruence.
  - intros [= <-]. apply omapM_Raise in Hprep as (obj & Hin & Hobj).
    apply omapM_Forall2 in Hbuild.
    destruct (Forall2_elem_of_r _ _ _ _ Hbuild Hin) as (r' & Hr' & Hb).
    destruct (Hrows r' Hr') as (r & Hr & Hok & ->).
    right. right. left.
    revert Hb Hobj. unfold build_trade, int, getitem, to_python.
    change (r_quantity (canonical r)) with (r_quantity r).
    change (r_value_usd (canonical r)) with (r_value_usd r).
    destruct (r_year (canonical r)); [|done].
    destruct (r_month (canonical r)); [|done].
    destruct (all_hs !! _); [|done]. cbn. intros [= <-]. cbn.
    destruct (r_quantity r) eqn:Hq; [|intros [= <-]; eauto 10].
    destruct (r_value_usd r) eqn:Hv; [done|]. intros [= <-]. eauto 10.
Qed.

(** ** The catalog under uploads *)

Lemma process_dataframe_catalog (df : DataFrame) (s s' : Store)
    (res : outcome nat) :
  process_dataframe df s = (s', res) →
  hs_table s' = hs_table s
  ∨ ∃ df' all_hs,
      normalize (rows df) = Ret df'
      ∧ resolve_hs_codes df' s
        = (mkStore (hs_table s') (trade_table s), Ret all_hs).
Proof.
  intros Hrun. pose proof (process_dataframe_cases df s) as Hcases.
  destruct (normalize (rows df)) as [df'|e].
  2: { rewrite Hcases in Hrun. injection Hrun as <- <-. by left. }
  destruct (resolve_hs_codes df' s) as [s1 [all_hs|e]] eqn:Hres.
  2: { rewrite Hcases in Hrun. injection Hrun as <- <-.
       apply resolve_hs_codes_store in Hres as [_ ->]. by left. }
  pose proof (resolve_hs_codes_store _ _ _ _ Hres) as [Ht _].
  assert (hs_table s' = hs_table s1) as Hsame.
  { destruct (omapM (build_trade all_hs) df') as [objs|e].
    2: { rewrite Hcases in Hrun. by injection Hrun as <- <-. }
    destruct (TradeData_bulk_create objs s1) as [s2 [u|e]] eqn:Hbulk.
    - rewrite Hcases in Hrun. injection Hrun as <- <-.
      by apply TradeData_bulk_create_spec in Hbulk as (ts & _ & ->).
    - rewrite Hcases in Hrun. by injection Hrun as <- <-. }
  right. exists df', all_hs. split; [done|].
  rewrite Hsame, <- Ht. by destruct s1.
Qed.

(** An upload only appends to the catalog, whatever its outcome: the
    entries that were there stay as they were.  An appended entry has a
    code the catalog did not hold, taken with the description from a row
    of the file whose month is in 1..12, and empty [chapter], [heading]
    and [subheading]: [bulk_create] does not go through [save]. *)
Theorem upload_appends_to_catalog (df : DataFrame) (s s' : Store)
    (res : outcome nat) :
  process_dataframe df s = (s', res) →
  ∃ added,
    hs_table s' = hs_table s ++ added
    ∧ ∀ h, h ∈ added →
        (code h ∉ code <$> hs_table s)
        ∧ (∃ r, r ∈ rows df ∧ month_ok r ∧ created_for r h)
        ∧ chapter h = "" ∧ heading h = "" ∧ subheading h = "".
Proof.
  intros [Hsame | (df' & all_hs & Hnorm & Hres)]%process_dataframe_catalog.
  - exists []. rewrite app_nil_r. split; [done|].
    intros h Hh. by apply elem_of_nil in Hh.
  - apply resolve_hs_codes_store in Hres as [_ Hh]. cbn in Hh.
    exists (catalog_additions df' s). split; [done|].
    intros h (r' & Hr' & -> & Hnew)%elem_of_catalog_additions.
    apply normalize_Ret in Hnorm. rewrite filter_month_ok_canonical in Hnorm.
    rewrite Hnorm in Hr'. apply list_elem_of_fmap in Hr' as (r & -> & Hr).
    apply list_elem_of_filter in Hr as [Hok Hr].
    split; [done|]. split; [|done]. exists r. by repeat split.
Qed.

(** An upload keeps the codes of the catalog pairwise distinct. *)
Theorem upload_keeps_codes_unique (df : DataFrame) (s s' : Store)
    (res : outcome nat) :
  process_dataframe df s = (s', res) →
  NoDup (code <$> hs_table s) → NoDup (code <$> hs_table s').
Proof.
  intros [-> | (df' & all_hs & Hnorm & Hres)]%process_dataframe_catalog Hnd;
    [done|].
  apply resolve_hs_codes_Ret in Hres as ([= ->] & Hadd & _).
  rewrite fmap_app. apply NoDup_app. split; [done|]. split; [|done].
  intros c Hc (h & -> & Hh)%list_elem_of_fmap.
  by apply elem_of_catalog_additions in Hh as (r & _ & -> & Hnew).
Qed.

(** ** When an upload succeeds *)

Lemma insert_all_hs_defined (objs : list HSCode) (s : Store) :
  NoDup (code <$> objs) →
  (∀ h, h ∈ objs → code h ∉ code <$> hs_table s) →
  ∃ s', insert_all insert_hs objs s = (s', Ret tt).
Proof.
  revert s. induction objs as [|o objs IH]; intros s Hnd Hfresh.
  - by exists s.
  - rewrite fmap_cons in Hnd. apply NoDup_cons in Hnd as [Ho Hnd].
    cbn [insert_all]. unfold bind, insert_hs.
    rewrite bool_decide_false by (apply Hfresh; left).
    apply IH; [done|]. intros h Hh. cbn [hs_table].
    rewrite fmap_app, elem_of_app. intros [Hold | Hnew].
    + by apply (Hfresh h); [right|].
    + change (code <$> [o]) with [code o] in Hnew.
      apply list_elem_of_singleton in Hnew. apply Ho. rewrite <- Hnew.
      by apply list_elem_of_fmap_2.
Qed.

Lemma insert_all_trade_defined (ts : list TradeData) (s : Store) :
  Forall (λ t, 0 ≤ year t ∧ 0 ≤ month t ∧ is_Some (country t)) ts →
  ∃ s', insert_all insert_trade ts s = (s', Ret tt).
Proof.
  intros Hok. revert s. induction Hok as [|t ts (Hy & Hm & Hc) _ IH]; intros s.
  - by exists s.
  - cbn [insert_all]. unfold bind, insert_trade.
    rewrite !bool_decide_true by done. cbn. apply IH.
Qed.

Lemma catalog_additions_NoDup (df : list Row) (s : Store) :
  (∀ r1 r2, r1 ∈ df → r2 ∈ df →
     text (r_hs_code r1) = text (r_hs_code r2) →
     text (r_hs_code r1) ∉ code <$> hs_table s →
     text (r_description r1) = text (r_description r2)) →
  NoDup (code <$> catalog_additions df s).
Proof.
  intros Hone. apply NoDup_fmap_2_strong.
  - intros h1 h2 (r1 & Hr1 & -> & Hnew)%elem_of_catalog_additions
      (r2 & Hr2 & -> & _)%elem_of_catalog_additions Hcode.
    cbn in Hcode. by rewrite (Hone r1 r2), Hcode.
  - unfold catalog_additions, new_hs_objects. apply NoDup_fmap_2_strong.
    + intros [c1 d1] [c2 d2] _ _ [= -> ->]. done.
    + apply NoDup_filter, NoDup_drop_duplicates.
Qed.

Lemma resolve_hs_codes_defined (df : list Row) (s : Store) :
  NoDup (code <$> catalog_additions df s) →
  ∃ s1 all_hs, resolve_hs_codes df s = (s1, Ret all_hs).
Proof.
  intros Hnd. unfold resolve_hs_codes, bind, HSCode_filter_code_in, ret.
  fold (catalog_additions df s).
  destruct (insert_all_hs_defined (catalog_additions df s) s Hnd)
    as [s1 Hins].
  { by intros h (r & _ & -> & Hnew)%elem_of_catalog_additions. }
  destruct (catalog_additions df s) as [|o objs]; [by eexists _, _|].
  unfold HSCode_bulk_create, atomic. rewrite Hins. by eexists _, _.
Qed.

Lemma omapM_bind_parameters_defined (ts : list TradeData) :
  Forall (λ t, int64 (year t) = true ∧ int64 (month t) = true) ts →
  omapM bind_parameters ts = Ret ts.
Proof.
  induction 1 as [|t ts [Hy Hm] _ IH]; [done|].
  cbn [omapM]. unfold bind_parameters at 1. by rewrite Hy, Hm, IH.
Qed.

(** An upload of plain data succeeds when no month cell is blank, every
    row whose month is in 1..12 has a year that is not negative and fits
    64 bits, a quantity and a value, and the rows that bring a code the
    catalog does not hold agree on its description.  It then returns the
    number of rows whose month is in 1..12. *)
Theorem upload_succeeds (df : DataFrame) (s : Store) :
  plain_upload df →
  (∀ r, r ∈ rows df → is_Some (r_month r)) →
  (∀ r, r ∈ rows df → month_ok r →
     (∃ y, r_year r = Some y ∧ 0 ≤ y < 2 ^ 63)
     ∧ is_Some (r_quantity r) ∧ is_Some (r_value_usd r)) →
  (∀ r1 r2, r1 ∈ rows df → r2 ∈ rows df → month_ok r1 → month_ok r2 →
     Str.strip (text (r_hs_code r1)) = Str.strip (text (r_hs_code r2)) →
     Str.strip (text (r_hs_code r1)) ∉ code <$> hs_table s →
     text (r_description r1) = text (r_description r2)) →
  ∃ s', process_dataframe df s
        = (s', Ret (length (filter (λ r, month_ok r) (rows df)))).
Proof.
  intros _ Hmonths Hcells Hone.
  pose proof (process_dataframe_cases df s) as Hcases.
  (* normalization *)
  destruct (omapM_defined month_in_range (canonical <$> rows df)) as [mask Hmask].
  { intros r' (r & -> & Hr)%list_elem_of_fmap. unfold month_in_range.
    change (r_month (canonical r)) with (r_month r).
    destruct (Hmonths r Hr) as [m ->]. eauto. }
  assert (normalize (rows df)
          = Ret (canonical <$> filter (λ r, month_ok r) (rows df))) as Hnorm.
  { unfold normalize. rewrite <- !list_fmap_compose.
    change (omapM month_in_range (canonical <$> rows df) = Ret mask) in Hmask.
    change (obind (omapM month_in_range (canonical <$> rows df))
              (λ mask, Ret (select (canonical <$> rows df) mask)) = 
            Ret (canonical <$> filter (λ r, month_ok r) (rows df))).
    rewrite Hmask. cbn [obind].
    by rewrite (select_month_mask _ _ Hmask), filter_month_ok_canonical. }
  rewrite Hnorm in Hcases.
  set (df' := canonical <$> filter (λ r, month_ok r) (rows df)) in *.
  assert (∀ r', r' ∈ df' →
            ∃ r, r ∈ rows df ∧ month_ok r ∧ r' = canonical r) as Hrows.
  { intros r' (r & -> & Hr)%list_elem_of_fmap.
    apply list_elem_of_filter in Hr as [Hok Hr]. eauto. }
  (* the catalog *)
  destruct (resolve_hs_codes_defined df' s) as (s1 & all_hs & Hres).
  { apply catalog_additions_NoDup. intros r1' r2' Hr1 Hr2.
    destruct (Hrows r1' Hr1) as (r1 & Hin1 & Hok1 & ->).
    destruct (Hrows r2' Hr2) as (r2 & Hin2 & Hok2 & ->).
    intros Hcode Hnew. exact (Hone r1 r2 Hin1 Hin2 Hok1 Hok2 Hcode Hnew). }
  rewrite Hres in Hcases.
  pose proof (resolve_hs_codes_store _ _ _ _ Hres) as [Ht _].
  (* the records *)
  destruct (omapM_defined (build_trade all_hs) df') as [objs Hbuild].
  { intros r' Hr'. destruct (Hrows r' Hr') as (r & Hr & Hok & ->).
    destruct (resolve_hs_codes_complete _ _ _ _ _ Hres Hr') as (h & Hsome & _).
    destruct (Hcells r Hr Hok) as ((y & Hy & _) & _).
    destruct (Hmonths r Hr) as [m Hm].
    unfold build_trade, int, getitem. rewrite Hsome.
    change (r_year (canonical r)) with (r_year r).
    change (r_month (canonical r)) with (r_month r).
    rewrite Hy, Hm. cbn. eauto. }
  rewrite Hbuild in Hcases.
  destruct (omapM_defined to_python objs) as [ts Hprep].
  { intros obj Hobj.
    destruct (Forall2_elem_of_r _ _ _ _ (proj1 (omapM_Forall2 _ _ _) Hbuild) Hobj)
      as (r' & Hr' & Hb).
    destruct (Hrows r' Hr') as (r & Hr & Hok & ->).
    destruct (Hcells r Hr Hok) as (_ & [q Hq] & [v Hv]).
    revert Hb. unfold build_trade, int, getitem, to_python.
    change (r_quantity (canonical r)) with (r_quantity r).
    change (r_value_usd (canonical r)) with (r_value_usd r).
    destruct (r_year (canonical r)); [|done].
    destruct (r_month (canonical r)); [|done].
    destruct (all_hs !! _); [|done]. cbn. intros [= <-]. cbn.
    rewrite Hq, Hv. eauto. }
  assert (Forall (λ t, (0 ≤ year t < 2 ^ 63 ∧ 1 ≤ month t ≤ 12)
                      ∧ is_Some (country t)) ts) as Hchecked.
  { apply Forall_forall. intros t Hin.
    destruct (Forall2_elem_of_r _ _ _ _
                (omapM_compose _ _ _ _ _ Hbuild Hprep) Hin)
      as (r' & Hr' & obj & Hb & Hp).
    destruct (Hrows r' Hr') as (r & Hr & Hok & ->).
    destruct (build_stored _ _ _ _ Hb Hp) as (Hy & Hm & _ & _ & Hc & _).
    change (r_year (canonical r)) with (r_year r) in Hy.
    change (r_month (canonical r)) with (r_month r) in Hm.
    destruct (Hcells r Hr Hok) as ((y & Hy' & Hpos) & _).
    pose proof (month_ok_range r _ Hok Hm).
    rewrite Hc. split; [|done]. split; [|done].
    rewrite Hy in Hy'. injection Hy' as ->. done. }
  assert (omapM bind_parameters ts = Ret ts) as Hbind.
  { apply omapM_bind_parameters_defined.
    eapply Forall_impl; [exact Hchecked|]. intros t [[Hy Hm] _].
    split; apply int64_spec; lia. }
  destruct (insert_all_trade_defined ts s1) as [s2 Hins].
  { eapply Forall_impl; [exact Hchecked|]. intros t [[Hy Hm] Hc].
    split; [lia|]. split; [lia | done]. }
  assert (TradeData_bulk_create objs s1 = (s2, Ret tt)) as Hbulk.
  { unfold TradeData_bulk_create, atomic, bind, lift.
    by rewrite Hprep, Hbind, Hins. }
  rewrite Hbulk in Hcases. exists s2. rewrite Hcases.
  rewrite (omapM_length _ _ _ Hbuild). unfold df'. by rewrite length_fmap.
Qed.

(** ** Normal form of the stored text *)

Lemma upper_char_idemp (c : ascii) :
  Str.upper_char (Str.upper_char c) = Str.upper_char c.
Proof. destruct c as [[] [] [] [] [] [] [] []]; reflexivity. Qed.

Lemma is_space_upper_char (c : ascii) :
  Str.is_space (Str.upper_char c) = Str.is_space c.
Proof. destruct c as [[] [] [] [] [] [] [] []]; reflexivity. Qed.

Lemma upper_idemp (s : string) : Str.upper (Str.upper s) = Str.upper s.
Proof.
  unfold Str.upper. induction s as [|c s IH]; cbn [Str.map_chars]; [done|].
  by rewrite upper_char_idemp, IH.
Qed.

Lemma upper_lstrip (s : string) :
  Str.upper (Str.lstrip s) = Str.lstrip (Str.upper s).
Proof.
  unfold Str.upper. induction s as [|c s IH]; [done|].
  cbn [Str.lstrip Str.map_chars]. rewrite is_space_upper_char.
  by destruct (Str.is_space c).
Qed.

Lemma upper_rstrip (s : string) :
  Str.upper (Str.rstrip s) = Str.rstrip (Str.upper s).
Proof.
  unfold Str.upper. induction s as [|c s IH]; [done|].
  cbn [Str.rstrip Str.map_chars]. rewrite <- IH, is_space_upper_char.
  destruct (Str.rstrip s); cbn [Str.map_chars]; [|done].
  by destruct (Str.is_space c).
Qed.

Lemma upper_strip (s : string) :
  Str.upper (Str.strip s) = Str.strip (Str.upper s).
Proof. unfold Str.strip. by rewrite upper_rstrip, upper_lstrip. Qed.

Lemma rstrip_cons (c : ascii) (s : string) :
  Str.rstrip (String c s)
  = match Str.rstrip s with
    | EmptyString => if Str.is_space c then EmptyString else String c EmptyString
    | t => String c t
    end.
Proof. reflexivity. Qed.

Lemma rstrip_idemp (s : string) : Str.rstrip (Str.rstrip s) = Str.rstrip s.
Proof.
  induction s as [|c s IH]; [done|]. rewrite rstrip_cons.
  destruct (Str.rstrip s) as [|c' t] eqn:Ht.
  - destruct (Str.is_space c) eqn:Hc; [done|].
    rewrite rstrip_cons. cbn [Str.rstrip]. by rewrite Hc.
  - rewrite rstrip_cons, IH. done.
Qed.

Lemma lstrip_head (s : string) :
  match Str.lstrip s with
  | EmptyString => True
  | String c _ => Str.is_space c = false
  end.
Proof.
  induction s as [|c s IH]; [done|]. cbn [Str.lstrip].
  by destruct (Str.is_space c) eqn:Hc.
Qed.

Lemma lstrip_rstrip_lstrip (s : string) :
  Str.lstrip (Str.rstrip (Str.lstrip s)) = Str.rstrip (Str.lstrip s).
Proof.
  pose proof (lstrip_head s) as Hhead.
  destruct (Str.lstrip s) as [|c u]; [done|]. rewrite rstrip_cons.
  destruct (Str.rstrip u); rewrite ?Hhead; cbn [Str.lstrip]; by rewrite Hhead.
Qed.

Lemma strip_idemp (s : string) : Str.strip (Str.strip s) = Str.strip s.
Proof. unfold Str.strip. by rewrite lstrip_rstrip_lstrip, rstrip_idemp. Qed.

Lemma ascii_upper_char (c : ascii) :
  (nat_of_ascii (Str.upper_char c) <? 128)%nat = (nat_of_ascii c <? 128)%nat.
Proof. destruct c as [[] [] [] [] [] [] [] []]; reflexivity. Qed.

Lemma ascii_text_cons (c : ascii) (s : string) :
  ascii_text (String c s) ↔ (nat_of_ascii c <? 128)%nat ∧ ascii_text s.
Proof. cbn [ascii_text]. by rewrite andb_True. Qed.

Lemma ascii_text_upper (s : string) : ascii_text s → ascii_text (Str.upper s).
Proof.
  unfold Str.upper. induction s as [|c s IH]; [done|].
  cbn [Str.map_chars]. rewrite !ascii_text_cons, ascii_upper_char.
  intros [Hc Hs]. split; [done | by apply IH].
Qed.

Lemma ascii_text_lstrip (s : string) : ascii_text s → ascii_text (Str.lstrip s).
Proof.
  induction s as [|c s IH]; [done|]. cbn [Str.lstrip].
  destruct (Str.is_space c); [|done].
  rewrite ascii_text_cons. intros [_ Hs]. by apply IH.
Qed.

Lemma ascii_text_rstrip (s : string) : ascii_text s → ascii_text (Str.rstrip s).
Proof.
  induction s as [|c s IH]; [done|]. rewrite rstrip_cons, ascii_text_cons.
  intros [Hc Hs]. specialize (IH Hs).
  destruct (Str.rstrip s) as [|c' t].
  - destruct (Str.is_space c); [done|]. by rewrite ascii_text_cons.
  - by rewrite ascii_text_cons.
Qed.

Lemma ascii_text_strip (s : string) : ascii_text s → ascii_text (Str.strip s).
Proof. intros Hs. by apply ascii_text_rstrip, ascii_text_lstrip. Qed.

(** The direction and the code of a record an upload of plain data
    stores are ASCII text in normal form: upper-casing the direction again,
    or stripping either of them again, changes nothing.  In particular the
    direction is never the label "Import" or "Export". *)
Theorem upload_normalizes_text (df : DataFrame) (s s' : Store) (n : nat) :
  process_dataframe df s = (s', Ret n) →
  plain_upload df →
  ∃ new, trade_table s' = trade_table s ++ new
    ∧ ∀ t, t ∈ new →
        ascii_text (trade_type t)
        ∧ ascii_text (code (hs_code t))
        ∧ Str.upper (trade_type t) = trade_type t
        ∧ Str.strip (trade_type t) = trade_type t
        ∧ Str.strip (code (hs_code t)) = code (hs_code t)
        ∧ trade_type t ≠ "Import" ∧ trade_type t ≠ "Export".
Proof.
  intros (new & Hnew & _ & Hrows)%stored_rows Hplain.
  exists new. split; [done|]. intros t Hin.
  destruct (Forall2_elem_of_r _ _ _ _ Hrows Hin)
    as (r & Hr & (_ & _ & Ht & Hc & _) & _).
  apply list_elem_of_filter in Hr as [Hok Hr].
  destruct (proj1 Hplain r Hr Hok) as (Hdir & Hcode & _).
  assert (Str.upper (trade_type t) = trade_type t) as Hup.
  { by rewrite Ht, upper_strip, upper_idemp. }
  split; [rewrite Ht; by apply ascii_text_strip, ascii_text_upper|].
  split; [rewrite Hc; by apply ascii_text_strip|].
  split; [done|]. split; [by rewrite Ht, strip_idemp|].
  split; [by rewrite Hc, strip_idemp|].
  split; intros Heq; by rewrite Heq in Hup.
Qed.

(** ** The queryset of the dashboard and of the export *)

Lemma Meta_ordering_newest_first (a b : TradeData) :
  Meta_ordering a b = true ↔ newest_first a b.
Proof.
  unfold Meta_ordering, newest_first.
  rewrite orb_true_iff, andb_true_iff, !bool_decide_eq_true. done.
Qed.

Lemma newest_first_trans : Transitive newest_first.
Proof. unfold newest_first. intros a b c. lia. Qed.

Lemma objects_all_sorted (s : Store) :
  StronglySorted newest_first (objects_all s).
Proof.
  apply (@Sorted_StronglySorted _ _ newest_first_trans).
  unfold objects_all.
  apply (Sorted_weaken (λ a b, Meta_ordering a b = true)).
  - intros a b. apply Meta_ordering_newest_first.
  - apply sort_by_Sorted. intros a b. unfold Meta_ordering.
    rewrite orb_false_iff, andb_false_iff, orb_true_iff, andb_true_iff,
      !bool_decide_eq_false, !bool_decide_eq_true. lia.
Qed.

Lemma elem_of_opt_filter {V} (o : option V) (guard : V → bool)
    (P : V → TradeData → Prop) {dec : ∀ v r, Decision (P v r)}
    (qs : list TradeData) (r : TradeData) :
  r ∈ opt_filter o guard P qs ↔
  r ∈ qs ∧ ∀ v, o = Some v → guard v = true → P v r.
Proof.
  unfold opt_filter. destruct o as [v|].
  - destruct (guard v) eqn:Hg.
    + rewrite list_elem_of_filter. split.
      * intros [HP Hin]. split; [done|]. by intros ? [= <-] _.
      * intros [Hin HP]. split; [by apply HP | done].
    + split; [|by intros [? _]]. intros Hin. split; [done|].
      intros ? [= <-]. congruence.
  - split; [|by intros [? _]]. intros Hin. split; [done|]. by intros ? [=].
Qed.

Lemma opt_filter_sublist {V} (o : option V) (guard : V → bool)
    (P : V → TradeData → Prop) {dec : ∀ v r, Decision (P v r)}
    (qs : list TradeData) :
  opt_filter o guard P qs `sublist_of` qs.
Proof.
  unfold opt_filter. destruct o as [v|]; [|done].
  destruct (guard v); [apply sublist_filter | done].
Qed.

Lemma get_queryset_opt_filter (GET : QueryDict) (s : Store) :
  get_queryset GET s
  = opt_filter (q_search GET) Str.truthy
      (λ w r, icontains w (code (hs_code r))
              || icontains w (description (hs_code r)))
      (dec := λ w r, decide _)
      (opt_filter (q_country GET) Str.truthy (λ c r, country r = Some c)
         (dec := λ c r, decide _)
         (opt_filter (q_trade_type GET) Str.truthy (λ t r, trade_type r = t)
            (dec := λ t r, decide _)
            (opt_filter (q_month GET) (λ _, true) (λ m r, month r = m)
               (dec := λ m r, decide _)
               (opt_filter (q_year GET) (λ _, true) (λ y r, year r = y)
                  (dec := λ y r, decide _)
                  (objects_all s))))).
Proof.
  unfold get_queryset, opt_filter.
  destruct (q_year GET), (q_month GET), (q_trade_type GET), (q_country GET),
    (q_search GET); reflexivity.
Qed.

Lemma export_opt_filter (GET : QueryDict) (s : Store) :
  export_filtered_data GET s
  = csv_header ::
    (csv_row <$>
       opt_filter (q_country GET) Str.truthy (λ c r, country r = Some c)
         (dec := λ c r, decide _)
         (opt_filter (q_crop GET) Str.truthy
            (λ c r, description (hs_code r) = c)
            (dec := λ c r, decide _)
            (opt_filter (q_month GET) (λ _, true) (λ m r, month r = m)
               (dec := λ m r, decide _)
               (opt_filter (q_year GET) (λ _, true) (λ y r, year r = y)
                  (dec := λ y r, decide _)
                  (objects_all s))))).
Proof.
  unfold export_filtered_data, opt_filter.
  destruct (q_year GET), (q_month GET), (q_crop GET), (q_country GET);
    reflexivity.
Qed.

Lemma truthy_true (v : string) : Str.truthy v = true ↔ v ≠ "".
Proof.
  unfold Str.truthy. rewrite negb_true_iff, bool_decide_eq_false. done.
Qed.

Lemma elem_of_get_queryset (GET : QueryDict) (s : Store) (r : TradeData) :
  r ∈ get_queryset GET s ↔ r ∈ trade_table s ∧ matches GET r.
Proof.
  rewrite get_queryset_opt_filter, !elem_of_opt_filter. unfold objects_all.
  rewrite sort_by_Permutation. unfold matches.
  setoid_rewrite truthy_true. setoid_rewrite orb_True.
  setoid_rewrite Is_true_true. naive_solver.
Qed.

(** The queryset of the dashboard holds the records of the trade table
    that pass every filter of the query string and nothing else, none more
    often than the table holds it; without any parameter it is the whole
    table, reordered. *)
Theorem queryset_selects_matching (GET : QueryDict) (s : Store) :
  (∀ r, r ∈ get_queryset GET s ↔ r ∈ trade_table s ∧ matches GET r)
  ∧ get_queryset GET s ⊆+ trade_table s
  ∧ get_queryset (mkQuery None None None None None None) s ≡ₚ trade_table s.
Proof.
  split; [|split].
  - apply elem_of_get_queryset.
  - rewrite get_queryset_opt_filter.
    etrans; [|apply Permutation_submseteq, (sort_by_Permutation Meta_ordering)].
    apply sublist_submseteq.
    repeat (etrans; [apply opt_filter_sublist|]). done.
  - apply (sort_by_Permutation Meta_ordering).
Qed.

(** The dashboard lists the records newest first: by year from the latest
    to the earliest, and within a year by month from the last to the
    first. *)
Theorem queryset_newest_first (GET : QueryDict) (s : Store) :
  StronglySorted newest_first (get_queryset GET s).
Proof.
  rewrite get_queryset_opt_filter.
  eapply StronglySorted_sublist; [|apply objects_all_sorted].
  repeat (etrans; [apply opt_filter_sublist|]). done.
Qed.

(** The export writes the header and then one row of eight fields for each
    record of the trade table that passes the filters [year], [month],
    [crop] and [country] of the query string, newest first. *)
Theorem export_rows (GET : QueryDict) (s : Store) :
  ∃ qs,
    export_filtered_data GET s = csv_header :: (csv_row <$> qs)
    ∧ (∀ r, r ∈ qs ↔ r ∈ trade_table s ∧ export_matches GET r)
    ∧ qs ⊆+ trade_table s
    ∧ StronglySorted newest_first qs
    ∧ Forall (λ row, length row = 8%nat) (export_filtered_data GET s).
Proof.
  rewrite export_opt_filter. eexists. split; [reflexivity|].
  split; [|split; [|split]].
  - intros r. rewrite !elem_of_opt_filter. unfold export_matches, objects_all.
    rewrite sort_by_Permutation.
    setoid_rewrite truthy_true. naive_solver.
  - etrans; [|apply Permutation_submseteq, (sort_by_Permutation Meta_ordering)].
    apply sublist_submseteq.
    repeat (etrans; [apply opt_filter_sublist|]). done.
  - eapply StronglySorted_sublist; [|apply objects_all_sorted].
    repeat (etrans; [apply opt_filter_sublist|]). done.
  - constructor; [done|]. apply Forall_fmap, Forall_forall. by intros r _.
Qed.

(** ** Shares of the whole *)




(** The two top-10 lists of the dashboard are the ten largest groups by
    total value, largest first, of the view grouped by commodity and of
    its records with a country grouped by country; a group appears once. *)
Theorem top_ten_lists (qs : list TradeData) (ctx : Context) :
  analytics qs = Ret ctx →
  is_top_of 10 (top_hs_codes ctx)
    (values_annotate (λ r, (code (hs_code r), description (hs_code r))) qs)
  ∧ NoDup ((top_hs_codes ctx).*1)
  ∧ is_top_of 10 (top_countries ctx)
      (values_annotate country
         (filter (λ r, country r ≠ Some "")
            (filter (λ r, country r ≠ None) qs)))
  ∧ NoDup ((top_countries ctx).*1).
Proof.
  intros [_ _ _ Hcountries Hcodes _ _ _]%analytics_inv.
  rewrite Hcountries, Hcodes.
  assert (∀ K (l : list (K * Z)), NoDup (l.*1) →
            NoDup ((take 10 (order_by_total_desc l)).*1)) as Hnd.
  { intros K l Hl. rewrite fmap_take.
    apply (sublist_NoDup _ ((order_by_total_desc l).*1));
      [|apply sublist_take].
    unfold order_by_total_desc. by rewrite sort_by_Permutation. }
  split; [apply top_of_items|]. split.
  { apply Hnd. rewrite values_annotate_keys. apply NoDup_drop_duplicates. }
  split; [apply top_of_items|].
  apply Hnd. rewrite values_annotate_keys. apply NoDup_drop_duplicates.
Qed.




(** ** The balance over uploaded records *)

Lemma trade_table_unchanged (df : DataFrame) (s s' : Store) (e : exn) :
  process_dataframe df s = (s', Raise e) → trade_table s' = trade_table s.
Proof.
  intros Hrun. pose proof (process_dataframe_cases df s) as Hcases.
  destruct (normalize (rows df)) as [df'|e0].
  2: { rewrite Hcases in Hrun. by injection Hrun as <- <-. }
  destruct (resolve_hs_codes df' s) as [s1 [all_hs|e0]] eqn:Hres;
    pose proof (resolve_hs_codes_store _ _ _ _ Hres) as [Ht _].
  2: { rewrite Hcases in Hrun. by injection Hrun as <- <-. }
  destruct (omapM (build_trade all_hs) df') as [objs|e0].
  2: { rewrite Hcases in Hrun. by injection Hrun as <- <-. }
  destruct (TradeData_bulk_create objs s1) as [s2 [u|e0]];
    rewrite Hcases in Hrun; [done|]. by injection Hrun as <- <-.
Qed.



(** ** The lists of filter choices *)

Lemma distinct_ordered_spec `{EqDecision A} (le : A → A → bool)
    (values : list A) :
  (∀ a b, le a b = false → le b a = true) →
  (∀ x, x ∈ distinct_ordered le values ↔ x ∈ values)
  ∧ NoDup (distinct_ordered le values)
  ∧ Sorted (λ a b, le a b = true) (distinct_ordered le values).
Proof.
  intros Htotal. unfold distinct_ordered. split; [|split].
  - intros x. by rewrite sort_by_Permutation, elem_of_drop_duplicates.
  - rewrite sort_by_Permutation. apply NoDup_drop_duplicates.
  - by apply sort_by_Sorted.
Qed.

Lemma choices_spec `{EqDecision A} (le : A → A → bool) (f : TradeData → A)
    (l : list TradeData) :
  (∀ a b, le a b = false → le b a = true) →
  (∀ x, x ∈ distinct_ordered le (f <$> l) ↔ ∃ t, t ∈ l ∧ f t = x)
  ∧ NoDup (distinct_ordered le (f <$> l))
  ∧ Sorted (λ a b, le a b = true) (distinct_ordered le (f <$> l)).
Proof.
  intros Htotal.
  destruct (distinct_ordered_spec le (f <$> l) Htotal) as (H1 & H2 & H3).
  split; [|done]. intros x. rewrite H1, list_elem_of_fmap. naive_solver.
Qed.

Lemma text_le_total (a b : option string) :
  text_le a b = false → text_le b a = true.
Proof.
  destruct a as [x|], b as [y|]; cbn; try done.
  intros Hxy. by destruct (String.leb_total x y) as [H | H]; [congruence|].
Qed.

(** Each of the four lists of filter choices holds exactly the values of
    its field that occur in the trade table, each once, in ascending
    order; the lists do not depend on the query string. *)
Theorem filter_choices_listed (s : Store) :
  ((∀ y, y ∈ years (filter_choices s) ↔ ∃ t, t ∈ trade_table s ∧ year t = y)
   ∧ NoDup (years (filter_choices s))
   ∧ Sorted Z.le (years (filter_choices s)))
  ∧ ((∀ m, m ∈ months (filter_choices s) ↔
           ∃ t, t ∈ trade_table s ∧ month t = m)
     ∧ NoDup (months (filter_choices s))
     ∧ Sorted Z.le (months (filter_choices s)))
  ∧ ((∀ d, d ∈ trade_types (filter_choices s) ↔
           ∃ t, t ∈ trade_table s ∧ trade_type t = d)
     ∧ NoDup (trade_types (filter_choices s))
     ∧ Sorted (λ a b, String.leb a b = true) (trade_types (filter_choices s)))
  ∧ ((∀ c, c ∈ countries (filter_choices s) ↔
           ∃ t, t ∈ trade_table s ∧ country t = c)
     ∧ NoDup (countries (filter_choices s))
     ∧ Sorted (λ a b, text_le a b = true) (countries (filter_choices s))).
Proof.
  assert (∀ a b, Z.leb a b = false → Z.leb b a = true) as HZ by lia.
  assert (∀ a b, String.leb a b = false → String.leb b a = true) as HS.
  { intros a b Hab. by destruct (String.leb_total a b); [congruence|]. }
  cbn [filter_choices years months trade_types countries].
  destruct (choices_spec Z.leb year (trade_table s) HZ) as (Hy1 & Hy2 & Hy3).
  destruct (choices_spec Z.leb month (trade_table s) HZ) as (Hm1 & Hm2 & Hm3).
  split; [|split; [|split]].
  - split; [done|]. split; [done|].
    eapply Sorted_weaken; [|exact Hy3]. intros a b. apply Z.leb_le.
  - split; [done|]. split; [done|].
    eapply Sorted_weaken; [|exact Hm3]. intros a b. apply Z.leb_le.
  - apply (choices_spec String.leb trade_type (trade_table s) HS).
  - apply (choices_spec text_le country (trade_table s) text_le_total).
Qed.

(** ** Saving a catalog entry *)

Lemma slice_to_length (n : nat) (s : string) :
  String.length (slice_to n s) = (n `min` String.length s)%nat.
Proof.
  revert s. induction n as [|n IH]; intros [|c s]; cbn; [done..|].
  by rewrite IH.
Qed.

Lemma slice_to_slice_to (n m : nat) (s : string) :
  slice_to n (slice_to m s) = slice_to (n `min` m) s.
Proof.
  revert m s. induction n as [|n IH]; intros [|m] [|c s]; cbn; try done.
  by rewrite IH.
Qed.

Lemma slice_to_prefix (n : nat) (s : string) :
  Str.startswith (slice_to n s) s = true.
Proof.
  revert s. induction n as [|n IH]; intros [|c s]; cbn; try done.
  rewrite bool_decide_true by done. apply IH.
Qed.

(** The three prefix fields [save] fills in are prefixes of the code, of
    at most 2, 4 and 6 characters, and each is the prefix of the next;
    deriving them again from an entry that went through [save] changes
    nothing. *)
Theorem save_derives_hierarchy (h : HSCode) :
  let h' := HSCode_derive h in
  code h' = code h ∧ description h' = description h
  ∧ (Str.startswith (chapter h') (code h) = true
     ∧ Str.startswith (heading h') (code h) = true
     ∧ Str.startswith (subheading h') (code h) = true)
  ∧ (String.length (chapter h') = 2 `min` String.length (code h)
     ∧ String.length (heading h') = 4 `min` String.length (code h)
     ∧ String.length (subheading h') = 6 `min` String.length (code h))%nat
  ∧ (chapter h' = slice_to 2 (heading h')
     ∧ heading h' = slice_to 4 (subheading h'))
  ∧ HSCode_derive h' = h'.
Proof.
  cbv zeta. unfold HSCode_derive.
  cbn [code description chapter heading subheading].
  rewrite !slice_to_prefix, !slice_to_length, !slice_to_slice_to.
  repeat split.
Qed.

(** Saving a new entry either appends the entry with its prefix fields
    derived, when the catalog does not hold its code, or raises on the
    unique constraint and writes nothing; the codes of the catalog stay
    pairwise distinct and the trade table is not touched. *)
Theorem save_new_entry (h : HSCode) (s s' : Store) (res : outcome HSCode) :
  HSCode_save h s = (s', res) →
  trade_table s' = trade_table s
  ∧ (NoDup (code <$> hs_table s) → NoDup (code <$> hs_table s'))
  ∧ match res with
    | Ret h' =>
        h' = HSCode_derive h
        ∧ hs_table s' = hs_table s ++ [h']
        ∧ code h ∉ code <$> hs_table s
    | Raise e =>
        e = IntegrityError ∧ s' = s ∧ code h ∈ code <$> hs_table s
    end.
Proof.
  unfold HSCode_save, bind, insert_hs, ret.
  change (code (HSCode_derive h)) with (code h).
  case_bool_decide as Hin; intros [= <- <-]; cbn.
  - done.
  - split; [done|]. split; [|done]. intros Hnd.
    rewrite fmap_app. apply NoDup_app. split; [done|]. split.
    + intros c Hc Hc'. change (code <$> [HSCode_derive h]) with [code h] in Hc'.
      apply list_elem_of_singleton in Hc'. by subst.
    + apply NoDup_singleton.
Qed.

(** ** The text of an uploaded file *)

Lemma utf8_ascii (raw : list Byte.byte) :
  Forall (λ b, (Byte.to_N b < 128)%N) raw →
  Codec.utf8 raw = Some (Byte.to_N <$> raw).
Proof.
  induction 1 as [|b raw Hb _ IH]; [done|].
  cbn [Codec.utf8]. apply N.ltb_lt in Hb. rewrite Hb, IH. done.
Qed.

Lemma cp1252_ascii (raw : list Byte.byte) :
  Forall (λ b, (Byte.to_N b < 128)%N) raw →
  mapM Codec.cp1252_char raw = Some (Byte.to_N <$> raw).
Proof.
  induction 1 as [|b raw Hb _ IH]; [done|].
  cbn [mapM]. rewrite IH. unfold Codec.cp1252_char.
  apply N.ltb_lt in Hb. rewrite Hb. done.
Qed.

Lemma byte_to_N_bound (b : Byte.byte) : (Byte.to_N b < 256)%N.
Proof. destruct b; vm_compute; reflexivity. Qed.

(** A file of ASCII bytes reads the same under each of the three
    encodings, and is read as UTF-8 at the first attempt.  A file that is
    not UTF-8 is read with one character per byte, none above U+00FF. *)
Theorem decoded_text (read_text : list N → option DataFrame)
    (raw : list Byte.byte) :
  (Forall (λ b, (Byte.to_N b < 128)%N) raw →
   (∀ enc, Codec.decode enc raw = Some (Byte.to_N <$> raw))
   ∧ read_csv_safely read_text raw
     = ([utf_8], parse_text read_text (Byte.to_N <$> raw)))
  ∧ (Codec.decode utf_8 raw = None →
     ∃ txt, (read_csv_safely read_text raw).2 = parse_text read_text txt
            ∧ length txt = length raw
            ∧ Forall (λ cp, (cp < 256)%N) txt).
Proof.
  split.
  - intros Hascii.
    assert (∀ enc, Codec.decode enc raw = Some (Byte.to_N <$> raw)) as Hall.
    { intros []; cbn [Codec.decode];
        [by apply utf8_ascii | done | by apply cp1252_ascii]. }
    split; [done|]. by rewrite read_csv_safely_cases, Hall.
  - intros Hbad. exists (Codec.iso8859_1 raw).
    rewrite read_csv_safely_cases, Hbad. split; [done|].
    unfold Codec.iso8859_1. split; [by rewrite length_fmap|].
    apply Forall_fmap, Forall_forall. intros b _. apply byte_to_N_bound.
Qed.

(** ** What the upload view answers *)

Lemma trade_table_grows (df : DataFrame) (s s' : Store) (n : nat) :
  process_dataframe df s = (s', Ret n) →
  ∃ new, trade_table s' = trade_table s ++ new ∧ n = length new.
Proof. intros (new & Hnew & Hn & _)%stored_rows. eauto. Qed.

Lemma load_frame_effect (df : DataFrame) (s s' : Store)
    (res : outcome Response) :
  load_frame df s = (s', res) →
  match res with
  | Ret (redirect (success msg)) =>
      ∃ new, trade_table s' = trade_table s ++ new
             ∧ msg = pretty (length new) +:+ " records uploaded successfully."
  | Ret (redirect (error msg)) =>
      s' = s ∧ msg = "Missing required columns in file."
  | Ret render_form => False
  | Raise _ => trade_table s' = trade_table s
  end.
Proof.
  unfold load_frame, bind, ret.
  destruct (issubset required_columns (columns df)); cbn [negb].
  - destruct (process_dataframe df s) as [s1 [n|e]] eqn:Hrun; intros [= <- <-].
    + apply trade_table_grows in Hrun as (new & Hnew & ->). eauto.
    + by apply trade_table_unchanged in Hrun.
  - by intros [= <- <-].
Qed.

(** The upload view always answers, whatever goes wrong inside.  When it
    answers with a success message, the trade table has grown by the
    number of records the message states; with an error message, or with
    the form again, the trade table is as it was. *)
Theorem post_answers
    (read_text : list N → option DataFrame)
    (read_excel : list Byte.byte → outcome DataFrame)
    (request : Request) (s : Store) :
  ∃ s' response,
    post read_text read_excel request s = (s', Ret response)
    ∧ match response with
      | redirect (success msg) =>
          ∃ new, trade_table s' = trade_table s ++ new
                 ∧ msg = pretty (length new)
                         +:+ " records uploaded successfully."
      | redirect (error _) => trade_table s' = trade_table s
      | render_form => s' = s ∧ form_valid request = false
      end.
Proof.
  unfold post. destruct (form_valid request) eqn:Hvalid; cbn [negb].
  2: { by exists s, render_form. }
  unfold try_except, bind, lift, ret.
  assert (∀ df, ∃ s' response,
    match load_frame df s with
    | (s1, Raise e) =>
        (s1, Ret (redirect (error ("Upload failed: " +:+ str_exn e))))
    | r => r
    end = (s', Ret response)
    ∧ match response with
      | redirect (success msg) =>
          ∃ new, trade_table s' = trade_table s ++ new
                 ∧ msg = pretty (length new)
                         +:+ " records uploaded successfully."
      | redirect (error _) => trade_table s' = trade_table s
      | render_form => s' = s ∧ true = false
      end) as Hload.
  { intros df. destruct (load_frame df s) as [s1 res] eqn:Hl.
    apply load_frame_effect in Hl.
    destruct res as [[|[msg|msg]]|e]; [done | | |]; eexists _, _;
      (split; [reflexivity|]); [by destruct Hl as [-> _] | done | done]. }
  destruct (Str.endswith ".csv" _).
  - destruct ((read_csv_safely read_text (file_data request)).2) as [df|e].
    + apply Hload.
    + by eexists _, _.
  - destruct (Str.endswith ".xlsx" _).
    + destruct (read_excel (file_data request)) as [df|e].
      * apply Hload.
      * by eexists _, _.
    + by eexists _, _.
Qed.

(** ** Searching without regard to case *)

Lemma lower_upper_char (c : ascii) :
  Str.lower_char (Str.upper_char c) = Str.lower_char c.
Proof. destruct c as [[] [] [] [] [] [] [] []]; reflexivity. Qed.

Lemma lower_upper (s : string) : Str.lower (Str.upper s) = Str.lower s.
Proof.
  unfold Str.lower, Str.upper.
  induction s as [|c s IH]; cbn [Str.map_chars]; [done|].
  by rewrite lower_upper_char, IH.
Qed.

Lemma truthy_upper (s : string) : Str.truthy (Str.upper s) = Str.truthy s.
Proof. by destruct s. Qed.

(** The free-text search does not see the case of ASCII letters, in the
    word searched for or in the code and description searched in. *)
Theorem search_ignores_case (GET : QueryDict) (s : Store) (w : string) :
  get_queryset
    (mkQuery (q_year GET) (q_month GET) (q_trade_type GET) (q_country GET)
       (Some (Str.upper w)) (q_crop GET)) s
  = get_queryset
      (mkQuery (q_year GET) (q_month GET) (q_trade_type GET) (q_country GET)
         (Some w) (q_crop GET)) s
  ∧ ∀ hay, icontains w (Str.upper hay) = icontains w hay.
Proof.
  split.
  - unfold get_queryset. cbn [q_year q_month q_trade_type q_country q_search].
    rewrite truthy_upper. unfold icontains. by rewrite lower_upper.
  - intros hay. unfold icontains. by rewrite lower_upper.
Qed.

(** ** Instances *)

Lemma plain_two_rows : plain_upload Examples.two_rows.
Proof.
  split; [|vm_compute; lia].
  intros r Hr _. apply elem_of_cons in Hr as [-> | Hr];
    [|apply list_elem_of_singleton in Hr as ->];
    (split; [exact I|]; split; [exact I|]; split; intros a [= <-]; lia).
Defined.

Lemma upload_stores_rows_witness :
  ∃ new,
    trade_table MoreExamples.after_two_rows
    = trade_table Examples.empty_store ++ new
    ∧ 2%nat = length new
    ∧ Forall2 stored_as
        (filter (λ r, month_ok r) (rows Examples.two_rows)) new
    ∧ Forall (λ t, hs_code t ∈ hs_table MoreExamples.after_two_rows) new
    ∧ Forall (λ t, 0 ≤ year t < 2 ^ 63) new.
Proof.
  apply (upload_stores_rows Examples.two_rows Examples.empty_store).
  - vm_compute. reflexivity.
  - exact plain_two_rows.
Defined.

Lemma upload_exceptions_witness :
  (OverflowError = TypeError
   ∧ ∃ r, r ∈ rows MoreExamples.far_year_batch ∧ r_month r = None)
  ∨ (OverflowError = ValueError
     ∧ ∃ r, r ∈ rows MoreExamples.far_year_batch ∧ month_ok r
            ∧ r_year r = None)
  ∨ (OverflowError = ValidationError
     ∧ ∃ r, r ∈ rows MoreExamples.far_year_batch ∧ month_ok r
            ∧ (r_quantity r = None ∨ r_value_usd r = None))
  ∨ (OverflowError = OverflowError
     ∧ ∃ r y, r ∈ rows MoreExamples.far_year_batch ∧ month_ok r
              ∧ r_year r = Some y ∧ ¬ (- 2 ^ 63 ≤ y < 2 ^ 63))
  ∨ OverflowError = IntegrityError.
Proof.
  apply (upload_exceptions MoreExamples.far_year_batch Examples.empty_store
           (mkStore [Examples.horses] [])).
  - vm_compute. reflexivity.
  - split; [|vm_compute; lia].
    intros r Hr _. apply elem_of_cons in Hr as [-> | Hr];
      [|apply list_elem_of_singleton in Hr as ->];
      (split; [exact I|]; split; [exact I|]; split; intros a [= <-]; lia).
Defined.

Lemma upload_appends_to_catalog_witness :
  ∃ added,
    hs_table MoreExamples.after_two_rows
    = hs_table Examples.empty_store ++ added
    ∧ ∀ h, h ∈ added →
        (code h ∉ code <$> hs_table Examples.empty_store)
        ∧ (∃ r, r ∈ rows Examples.two_rows ∧ month_ok r ∧ created_for r h)
        ∧ chapter h = "" ∧ heading h = "" ∧ subheading h = "".
Proof.
  apply (upload_appends_to_catalog Examples.two_rows Examples.empty_store
           MoreExamples.after_two_rows (Ret 2%nat)).
  vm_compute. reflexivity.
Defined.

Lemma upload_keeps_codes_unique_witness :
  NoDup (code <$> hs_table MoreExamples.after_two_rows).
Proof.
  apply (upload_keeps_codes_unique Examples.two_rows Examples.empty_store
           MoreExamples.after_two_rows (Ret 2%nat)).
  - vm_compute. reflexivity.
  - constructor.
Defined.

Lemma upload_succeeds_witness :
  ∃ s', process_dataframe Examples.two_rows Examples.empty_store
        = (s', Ret (length (filter (λ r, month_ok r)
                              (rows Examples.two_rows)))).
Proof.
  apply upload_succeeds.
  - exact plain_two_rows.
  - intros r Hr. apply elem_of_cons in Hr as [-> | Hr]; [by eexists|].
    apply list_elem_of_singleton in Hr as ->. by eexists.
  - intros r Hr _. apply elem_of_cons in Hr as [-> | Hr].
    + split; [exists 2024; split; [reflexivity | lia]|]. split; by eexists.
    + apply list_elem_of_singleton in Hr as ->.
      split; [exists 2024; split; [reflexivity | lia]|]. split; by eexists.
  - intros r1 r2 Hr1 Hr2 _ _ Hcode _.
    apply elem_of_cons in Hr1 as [-> | Hr1];
      [|apply list_elem_of_singleton in Hr1 as ->];
      (apply elem_of_cons in Hr2 as [-> | Hr2];
         [|apply list_elem_of_singleton in Hr2 as ->]);
      first [reflexivity | vm_compute in Hcode; discriminate].
Defined.

Lemma upload_normalizes_text_witness :
  ∃ new,
    trade_table MoreExamples.after_two_rows
    = trade_table Examples.empty_store ++ new
    ∧ ∀ t, t ∈ new →
        ascii_text (trade_type t)
        ∧ ascii_text (code (hs_code t))
        ∧ Str.upper (trade_type t) = trade_type t
        ∧ Str.strip (trade_type t) = trade_type t
        ∧ Str.strip (code (hs_code t)) = code (hs_code t)
        ∧ trade_type t ≠ "Import" ∧ trade_type t ≠ "Export".
Proof.
  apply (upload_normalizes_text Examples.two_rows Examples.empty_store _ 2%nat).
  - vm_compute. reflexivity.
  - exact plain_two_rows.
Defined.


Lemma export_same_filter_witness :
  export_filtered_data MoreExamples.year_2024 MoreExamples.after_two_rows
  = csv_header ::
    (csv_row <$>
       get_queryset MoreExamples.year_2024 MoreExamples.after_two_rows).
Proof. apply export_same_filter; reflexivity. Defined.

Lemma top_ten_lists_witness :
  ∃ ctx,
    analytics [Examples.import_100; Examples.export_300] = Ret ctx
    ∧ is_top_of 10 (top_hs_codes ctx)
        (values_annotate (λ r, (code (hs_code r), description (hs_code r)))
           [Examples.import_100; Examples.export_300])
    ∧ top_hs_codes ctx = [("1005", "Maize", 30000); ("0101", "Horses", 10000)].
Proof.
  destruct (analytics_defined [Examples.import_100; Examples.export_300])
    as [ctx Hctx].
  exists ctx. split; [exact Hctx|].
  split; [exact (proj1 (top_ten_lists _ ctx Hctx))|].
  vm_compute in Hctx. by injection Hctx as <-.
Defined.


Lemma save_new_entry_witness :
  trade_table (mkStore [HSCode_derive MoreExamples.pure_bred_horses] [])
  = trade_table Examples.empty_store
  ∧ (NoDup (code <$> hs_table Examples.empty_store) →
     NoDup (code <$> hs_table
              (mkStore [HSCode_derive MoreExamples.pure_bred_horses] [])))
  ∧ HSCode_derive MoreExamples.pure_bred_horses
    = HSCode_derive MoreExamples.pure_bred_horses
  ∧ hs_table (mkStore [HSCode_derive MoreExamples.pure_bred_horses] [])
    = hs_table Examples.empty_store
      ++ [HSCode_derive MoreExamples.pure_bred_horses]
  ∧ (code MoreExamples.pure_bred_horses
     ∉ code <$> hs_table Examples.empty_store).
Proof.
  apply (save_new_entry MoreExamples.pure_bred_horses Examples.empty_store
           _ (Ret (HSCode_derive MoreExamples.pure_bred_horses))).
  reflexivity.
Defined.

Lemma decoded_text_witness :
  ((∀ enc, Codec.decode enc MoreExamples.ascii_bytes = Some [97; 44; 98]%N)
   ∧ read_csv_safely (λ _, Some Examples.no_year_frame)
       MoreExamples.ascii_bytes
     = ([utf_8], Ret Examples.no_year_frame))
  ∧ ∃ txt,
      (read_csv_safely (λ _, Some Examples.no_year_frame) Examples.e_acute).2
      = parse_text (λ _, Some Examples.no_year_frame) txt
      ∧ length txt = length Examples.e_acute
      ∧ Forall (λ cp, (cp < 256)%N) txt.
Proof.
  destruct (decoded_text (λ _, Some Examples.no_year_frame)
              MoreExamples.ascii_bytes) as [Hascii _].
  destruct (decoded_text (λ _, Some Examples.no_year_frame)
              Examples.e_acute) as [_ Hlatin].
  split.
  - apply Hascii. repeat constructor.
  - apply Hlatin. reflexivity.
Defined.
